(** * Workflow translation, dispatch and execution tracking

    A shallow embedding of the workflow core of the backend:
    - [app/models/workflow.py]   (enumerations and the three records),
    - [app/services/n8n_service.py]   (graph translator and engine gateway),
    - [app/services/workflow_service.py]   (the orchestrator).

    The MongoDB collections are lists of documents in insertion order, the
    external engine is a record of functions giving the outcome of each HTTP
    call, and a Python exception is the [Raise] case of [result]. *)

From Stdlib Require Import ZArith QArith Qcanon.
From stdpp Require Import numbers strings pretty gmap sorting list.

Open Scope Z_scope.

(** ** Python values *)

(** The outcome of a Python call: a value, or [Exception(msg)]. *)
Inductive result (A : Type) : Type :=
| Ok (a : A)
| Raise (msg : string).
Arguments Ok {A} a.
Arguments Raise {A} msg.

Definition is_Raise {A} (r : result A) : Prop :=
  match r with Raise _ => True | Ok _ => False end.

#[global] Instance result_ret : MRet result := λ A a, Ok a.
#[global] Instance result_bind : MBind result := λ A B k r,
  match r with
  | Ok a => k a
  | Raise msg => Raise msg
  end.

(** Decoded JSON, the [Any] of the [Dict[str, Any]] annotations. *)
#[local] Unset Elimination Schemes.
Inductive json : Type :=
| JNull
| JBool (b : bool)
| JInt (z : Z)
| JFloat (q : Q)
| JStr (s : string)
| JArr (items : list json)
| JObj (fields : list (string * json)).
#[local] Set Elimination Schemes.

Definition json_eq_dec : ∀ a b : json, {a = b} + {a ≠ b}.
Proof.
  fix IH 1.
  intros [|b1|z1|q1|s1|l1|f1] [|b2|z2|q2|s2|l2|f2];
    try (right; discriminate); try (left; reflexivity).
  - destruct (Bool.bool_dec b1 b2); [left | right]; congruence.
  - destruct (Z.eq_dec z1 z2); [left | right]; congruence.
  - destruct q1 as [n1 d1], q2 as [n2 d2].
    destruct (Z.eq_dec n1 n2); [| right; congruence].
    destruct (Pos.eq_dec d1 d2); [left | right]; congruence.
  - destruct (String.string_dec s1 s2); [left | right]; congruence.
  - destruct (List.list_eq_dec IH l1 l2); [left | right]; congruence.
  - assert (Hp : ∀ x y : string * json, {x = y} + {x ≠ y}).
    { intros [k1 v1] [k2 v2].
      destruct (String.string_dec k1 k2); [| right; congruence].
      destruct (IH v1 v2); [left | right]; congruence. }
    destruct (List.list_eq_dec Hp f1 f2); [left | right]; congruence.
Defined.

#[global] Instance json_eq_decision : EqDecision json := json_eq_dec.

(** [d.get(key, default)] on a dict with string keys. *)
Definition dict_get {V} (d : gmap string V) (key : string) (dflt : V) : V :=
  default dflt (d !! key).

(** [x in [s1, ..., sn]] for a decoded value [x] and string literals. *)
Definition json_in_strs (x : json) (l : list string) : bool :=
  match x with
  | JStr s => bool_decide (s ∈ l)
  | _ => false
  end.

(** A [datetime]: the wall-clock reading in microseconds since
    1970-01-01T00:00:00 and the UTC offset in microseconds of an aware
    value; [tzinfo = None] makes it naive. *)
Record datetime : Type := mk_datetime {
  wall : Z;
  tzinfo : option Z
}.

#[global] Instance datetime_eq_decision : EqDecision datetime.
Proof. solve_decision. Defined.

(** [a - b], a [timedelta] in microseconds.  Python refuses to subtract a
    naive from an aware value and conversely (TypeError). *)
Definition datetime_sub (a b : datetime) : result Z :=
  match tzinfo a, tzinfo b with
  | None, None => Ok (wall a - wall b)
  | Some oa, Some ob => Ok ((wall a - oa) - (wall b - ob))
  | _, _ => Raise "can't subtract offset-naive and offset-aware datetimes"
  end.

(** [timedelta.total_seconds()], as an exact rational. *)
Definition total_seconds (micros : Z) : Qc := Q2Qc (micros # 1000000).

(** Truth value of an [Optional[str]]: [None] and [""] are false. *)
Definition truthy (s : option string) : bool :=
  match s with
  | None => false
  | Some x => negb (bool_decide (x = ""))
  end.

(** ** app/models/workflow.py *)

Inductive WorkflowStatus := DRAFT | ACTIVE | PAUSED | ERROR.
Inductive TriggerType := MANUAL | WEBHOOK | SCHEDULE | EVENT.
Inductive ActionType :=
  API_CALL | AI_PROCESS | DATA_TRANSFORM | NOTIFICATION | INTEGRATION_ACTION.
Inductive ExecutionStatus := PENDING | RUNNING | SUCCESS | FAILED | CANCELLED.

#[global] Instance WorkflowStatus_eq_decision : EqDecision WorkflowStatus.
Proof. solve_decision. Defined.
#[global] Instance TriggerType_eq_decision : EqDecision TriggerType.
Proof. solve_decision. Defined.
#[global] Instance ActionType_eq_decision : EqDecision ActionType.
Proof. solve_decision. Defined.
#[global] Instance ExecutionStatus_eq_decision : EqDecision ExecutionStatus.
Proof. solve_decision. Defined.

Definition ActionType_value (a : ActionType) : string :=
  match a with
  | API_CALL => "api_call"
  | AI_PROCESS => "ai_process"
  | DATA_TRANSFORM => "data_transform"
  | NOTIFICATION => "notification"
  | INTEGRATION_ACTION => "integration_action"
  end.

(** [ActionType(s)]: the member whose value is [s], if any. *)
Definition ActionType_of_value (s : string) : option ActionType :=
  head (filter (λ a, ActionType_value a = s)
          [API_CALL; AI_PROCESS; DATA_TRANSFORM; NOTIFICATION; INTEGRATION_ACTION]).

Module WorkflowStep.
Record t : Type := mk {
  id : string;
  name : string;
  action_type : ActionType;
  integration_id : option string;
  config : gmap string json;
  input_mapping : gmap string string;
  output_mapping : gmap string string;
  timeout_seconds : Z;
  retry_count : Z;
  on_error : string;
  order : Z;
  depends_on : list string
}.

#[global] Instance eq_decision : EqDecision t.
Proof. solve_decision. Defined.

Definition set_order (v : Z) (s : t) : t :=
  mk (id s) (name s) (action_type s) (integration_id s) (config s)
     (input_mapping s) (output_mapping s) (timeout_seconds s)
     (retry_count s) (on_error s) v (depends_on s).

(** One key of the [step_update] dict of [update_workflow_step], for the
    keys that name a field and carry a value of its type. *)
Inductive assignment : Type :=
| SetId (v : string)
| SetName (v : string)
| SetActionType (v : ActionType)
| SetIntegrationId (v : option string)
| SetConfig (v : gmap string json)
| SetInputMapping (v : gmap string string)
| SetOutputMapping (v : gmap string string)
| SetTimeoutSeconds (v : Z)
| SetRetryCount (v : Z)
| SetOnError (v : string)
| SetOrder (v : Z)
| SetDependsOn (v : list string).

Definition assign (s : t) (a : assignment) : t :=
  match a with
  | SetId v =>
      mk v (name s) (action_type s) (integration_id s) (config s)
        (input_mapping s) (output_mapping s) (timeout_seconds s)
        (retry_count s) (on_error s) (order s) (depends_on s)
  | SetName v =>
      mk (id s) v (action_type s) (integration_id s) (config s)
        (input_mapping s) (output_mapping s) (timeout_seconds s)
        (retry_count s) (on_error s) (order s) (depends_on s)
  | SetActionType v =>
      mk (id s) (name s) v (integration_id s) (config s)
        (input_mapping s) (output_mapping s) (timeout_seconds s)
        (retry_count s) (on_error s) (order s) (depends_on s)
  | SetIntegrationId v =>
      mk (id s) (name s) (action_type s) v (config s)
        (input_mapping s) (output_mapping s) (timeout_seconds s)
        (retry_count s) (on_error s) (order s) (depends_on s)
  | SetConfig v =>
      mk (id s) (name s) (action_type s) (integration_id s) v
        (input_mapping s) (output_mapping s) (timeout_seconds s)
        (retry_count s) (on_error s) (order s) (depends_on s)
  | SetInputMapping v =>
      mk (id s) (name s) (action_type s) (integration_id s) (config s)
        v (output_mapping s) (timeout_seconds s)
        (retry_count s) (on_error s) (order s) (depends_on s)
  | SetOutputMapping v =>
      mk (id s) (name s) (action_type s) (integration_id s) (config s)
        (input_mapping s) v (timeout_seconds s)
        (retry_count s) (on_error s) (order s) (depends_on s)
  | SetTimeoutSeconds v =>
      mk (id s) (name s) (action_type s) (integration_id s) (config s)
        (input_mapping s) (output_mapping s) v
        (retry_count s) (on_error s) (order s) (depends_on s)
  | SetRetryCount v =>
      mk (id s) (name s) (action_type s) (integration_id s) (config s)
        (input_mapping s) (output_mapping s) (timeout_seconds s)
        v (on_error s) (order s) (depends_on s)
  | SetOnError v =>
      mk (id s) (name s) (action_type s) (integration_id s) (config s)
        (input_mapping s) (output_mapping s) (timeout_seconds s)
        (retry_count s) v (order s) (depends_on s)
  | SetOrder v => set_order v s
  | SetDependsOn v =>
      mk (id s) (name s) (action_type s) (integration_id s) (config s)
        (input_mapping s) (output_mapping s) (timeout_seconds s)
        (retry_count s) (on_error s) (order s) v
  end.
End WorkflowStep.

Module Workflow.
Record t : Type := mk {
  id : string;
  user_id : string;
  team_id : string;
  name : string;
  description : option string;
  trigger_type : TriggerType;
  trigger_config : gmap string json;
  steps : list WorkflowStep.t;
  n8n_workflow_id : option string;
  n8n_webhook_id : option string;
  status : WorkflowStatus;
  is_template : bool;
  tags : list string;
  max_concurrent_executions : Z;
  execution_timeout_minutes : Z;
  created_at : datetime;
  updated_at : datetime
}.

#[global] Instance eq_decision : EqDecision t.
Proof. solve_decision. Defined.

(** The effect of a [$set] on the fields the services write. *)
Definition set_updated_at (now : datetime) (w : t) : t :=
  mk (id w) (user_id w) (team_id w) (name w) (description w) (trigger_type w)
     (trigger_config w) (steps w) (n8n_workflow_id w) (n8n_webhook_id w)
     (status w) (is_template w) (tags w) (max_concurrent_executions w)
     (execution_timeout_minutes w) (created_at w) now.

Definition set_status (s : WorkflowStatus) (w : t) : t :=
  mk (id w) (user_id w) (team_id w) (name w) (description w) (trigger_type w)
     (trigger_config w) (steps w) (n8n_workflow_id w) (n8n_webhook_id w)
     s (is_template w) (tags w) (max_concurrent_executions w)
     (execution_timeout_minutes w) (created_at w) (updated_at w).

Definition set_n8n_workflow_id (i : option string) (w : t) : t :=
  mk (id w) (user_id w) (team_id w) (name w) (description w) (trigger_type w)
     (trigger_config w) (steps w) i (n8n_webhook_id w)
     (status w) (is_template w) (tags w) (max_concurrent_executions w)
     (execution_timeout_minutes w) (created_at w) (updated_at w).

Definition set_steps (l : list WorkflowStep.t) (w : t) : t :=
  mk (id w) (user_id w) (team_id w) (name w) (description w) (trigger_type w)
     (trigger_config w) l (n8n_workflow_id w) (n8n_webhook_id w)
     (status w) (is_template w) (tags w) (max_concurrent_executions w)
     (execution_timeout_minutes w) (created_at w) (updated_at w).

Definition set_details (n : string) (d : option string)
    (c : gmap string json) (w : t) : t :=
  mk (id w) (user_id w) (team_id w) n d (trigger_type w)
     c (steps w) (n8n_workflow_id w) (n8n_webhook_id w)
     (status w) (is_template w) (tags w) (max_concurrent_executions w)
     (execution_timeout_minutes w) (created_at w) (updated_at w).
End Workflow.

Module WorkflowExecution.
Record t : Type := mk {
  id : string;
  workflow_id : string;
  user_id : string;
  status : ExecutionStatus;
  trigger_data : json;
  step_results : json;
  output_data : json;
  error_message : option string;
  started_at : datetime;
  completed_at : option datetime;
  duration_seconds : option Qc;
  n8n_execution_id : option string
}.
End WorkflowExecution.


Module WorkflowCreate.
Record t : Type := mk {
  name : string;
  description : option string;
  trigger_type : TriggerType;
  trigger_config : gmap string json
}.
End WorkflowCreate.

Module WorkflowResponse.
Record t : Type := mk {
  id : string;
  name : string;
  description : option string;
  trigger_type : TriggerType;
  trigger_config : gmap string json;
  status : WorkflowStatus;
  steps_count : nat;
  tags : list string;
  created_at : datetime;
  updated_at : datetime
}.

Definition of_workflow (w : Workflow.t) : t :=
  mk (Workflow.id w) (Workflow.name w) (Workflow.description w)
     (Workflow.trigger_type w) (Workflow.trigger_config w)
     (Workflow.status w) (length (Workflow.steps w)) (Workflow.tags w)
     (Workflow.created_at w) (Workflow.updated_at w).
End WorkflowResponse.

Module WorkflowUpdate.
Record t : Type := mk {
  name : option string;
  description : option string;
  trigger_config : option (gmap string json);
  status : option WorkflowStatus
}.
End WorkflowUpdate.

(** The body of a step request, before a [WorkflowStep] is built from it: a
    key that is absent is [None]; a key that is present carries a value of
    the JSON type its annotation names, except [action_type], which arrives
    as a string and has to name a member of [ActionType]. *)
Module StepBody.
Record t : Type := mk {
  id : option string;
  name : option string;
  action_type : option string;
  integration_id : option string;
  config : option (gmap string json);
  input_mapping : option (gmap string string);
  output_mapping : option (gmap string string);
  timeout_seconds : option Z;
  retry_count : option Z;
  on_error : option string;
  order : option Z;
  depends_on : option (list string)
}.
End StepBody.

(** Building a [WorkflowStep] from a body.  The class declares no
    validator, so the only checks are the ones of its annotations: [name]
    and [action_type] are required and [action_type] must be a value of the
    enumeration.  Every other key falls back to its declared default; [uuid]
    is the value [uuid4().hex] would produce. *)
Definition WorkflowStep_init (uuid : string) (body : StepBody.t)
  : result WorkflowStep.t :=
  match StepBody.name body with
  | None => Raise "name: field required"
  | Some name =>
    match StepBody.action_type body with
    | None => Raise "action_type: field required"
    | Some a =>
      match ActionType_of_value a with
      | None => Raise "action_type: value is not a valid enumeration member"
      | Some action_type =>
        Ok (WorkflowStep.mk
              (default uuid (StepBody.id body))
              name
              action_type
              (StepBody.integration_id body)
              (default ∅ (StepBody.config body))
              (default ∅ (StepBody.input_mapping body))
              (default ∅ (StepBody.output_mapping body))
              (default 300 (StepBody.timeout_seconds body))
              (default 0 (StepBody.retry_count body))
              (default "stop" (StepBody.on_error body))
              (default 0 (StepBody.order body))
              (default [] (StepBody.depends_on body)))
      end
    end
  end.

(** ** The persistence collaborator

    A collection is the list of its documents in insertion order, each read
    back as it was written; a filter is a decidable predicate on
    documents. *)

Section Collection.
Context {A : Type} (P : A → Prop) `{!∀ x, Decision (P x)}.

(** [find_one(filter)]: the first document that matches. *)
Definition find_one (l : list A) : option A := head (filter P l).

(** [update_one(filter, update)]: the update applied to the first match. *)
Fixpoint update_one (f : A → A) (l : list A) : list A :=
  match l with
  | [] => []
  | x :: rest => if decide (P x) then f x :: rest else x :: update_one f rest
  end.

(** [delete_one(filter)]: the first match removed. *)
Fixpoint delete_one (l : list A) : list A :=
  match l with
  | [] => []
  | x :: rest => if decide (P x) then rest else x :: delete_one rest
  end.

(** [delete_many(filter)]: every match removed. *)
Definition delete_many (l : list A) : list A := filter (λ x, ¬ P x) l.

(** [matched_count > 0] of an [update_one], [deleted_count > 0] of a
    [delete_one]. *)
Definition matched (l : list A) : bool := bool_decide (is_Some (find_one l)).

(** [modified_count > 0]: a document matched and the update changed it. *)
Definition modified `{!EqDecision A} (f : A → A) (l : list A) : bool :=
  match find_one l with
  | Some x => negb (bool_decide (f x = x))
  | None => false
  end.
End Collection.

Record DB : Type := mk_DB {
  workflows : list Workflow.t;
  workflow_executions : list WorkflowExecution.t
}.

Definition with_workflows (db : DB) (ws : list Workflow.t) : DB :=
  mk_DB ws (workflow_executions db).
Definition with_executions (db : DB) (es : list WorkflowExecution.t) : DB :=
  mk_DB (workflows db) es.

(** ** app/services/n8n_service.py: the graph translator *)

Module Node.
Record t : Type := mk {
  parameters : json;
  id : string;
  name : string;
  type : string;
  typeVersion : Q;
  position : Z * Z
}.
End Node.

Module Connection.
Record t : Type := mk {
  node : string;
  type : string;
  index : Z
}.
End Connection.

(** The dict sent to the engine.  [connections[src]] is always of the shape
    [{"main": [[c1, ..., cn]]}]; the map holds the list [c1, ..., cn]. *)
Module Graph.
Record t : Type := mk {
  name : string;
  active : bool;
  nodes : list Node.t;
  connections : gmap string (list Connection.t);
  settings : json;
  tags : list string
}.
End Graph.

Definition _create_trigger_node (trigger_type : TriggerType)
    (trigger_config : gmap string json) : Node.t :=
  match trigger_type with
  | WEBHOOK =>
      Node.mk
        (JObj [("httpMethod", dict_get trigger_config "method" (JStr "POST"));
               ("path", dict_get trigger_config "path" (JStr "webhook"));
               ("responseMode", JStr "responseNode");
               ("options", JObj [])])
        "trigger-webhook" "Webhook Trigger" "n8n-nodes-base.webhook"
        1%Q (250, 300)
  | SCHEDULE =>
      Node.mk
        (JObj [("rule",
                JObj [("interval",
                       dict_get trigger_config "interval"
                         (JArr [JObj [("field", JStr "cronExpression");
                                      ("expression", JStr "0 9 * * *")]]))])])
        "trigger-schedule" "Schedule Trigger" "n8n-nodes-base.cron"
        1%Q (250, 300)
  | _ =>
      Node.mk (JObj [])
        "trigger-manual" "Manual Trigger" "n8n-nodes-base.manualTrigger"
        1%Q (250, 300)
  end.

Definition _create_integration_node (step : WorkflowStep.t) (node_id : string)
    (position_y : Z) : Node.t :=
  let config := WorkflowStep.config step in
  let integration_type := dict_get config "integration_type" (JStr "") in
  if bool_decide (integration_type = JStr "slack") then
    Node.mk
      (JObj [("authentication", JStr "oAuth2");
             ("resource", JStr "message");
             ("operation", dict_get config "operation" (JStr "post"));
             ("channel", dict_get config "channel" (JStr ""));
             ("text", dict_get config "text" (JStr ""))])
      node_id (WorkflowStep.name step) "n8n-nodes-base.slack"
      (21 # 10)%Q (450, position_y)
  else if bool_decide (integration_type = JStr "github") then
    Node.mk
      (JObj [("authentication", JStr "oAuth2");
             ("resource", JStr "issue");
             ("operation", dict_get config "operation" (JStr "create"));
             ("owner", dict_get config "owner" (JStr ""));
             ("repository", dict_get config "repository" (JStr ""));
             ("title", dict_get config "title" (JStr ""));
             ("body", dict_get config "body" (JStr ""))])
      node_id (WorkflowStep.name step) "n8n-nodes-base.github"
      (12 # 10)%Q (450, position_y)
  else
    Node.mk
      (JObj [("url", dict_get config "url" (JStr ""));
             ("requestMethod", dict_get config "method" (JStr "POST"))])
      node_id (WorkflowStep.name step) "n8n-nodes-base.httpRequest"
      (41 # 10)%Q (450, position_y).

Definition _create_step_node (step : WorkflowStep.t) (index : nat) : Node.t :=
  let config := WorkflowStep.config step in
  let node_id := "step-" +:+ pretty index +:+ "-" +:+ WorkflowStep.id step in
  let position_y := 300 + (Z.of_nat index + 1) * 180 in
  match WorkflowStep.action_type step with
  | API_CALL =>
      Node.mk
        (JObj [("url", dict_get config "url" (JStr ""));
               ("requestMethod", dict_get config "method" (JStr "GET"));
               ("sendHeaders", JBool true);
               ("headerParameters",
                JObj [("parameters", dict_get config "headers" (JArr []))]);
               ("sendBody",
                JBool (json_in_strs (dict_get config "method" (JStr "GET"))
                         ["POST"; "PUT"; "PATCH"]));
               ("bodyParameters",
                JObj [("parameters", dict_get config "body" (JArr []))])])
        node_id (WorkflowStep.name step) "n8n-nodes-base.httpRequest"
        (41 # 10)%Q (450, position_y)
  | INTEGRATION_ACTION => _create_integration_node step node_id position_y
  | AI_PROCESS =>
      Node.mk
        (JObj [("model", dict_get config "model" (JStr "gpt-4"));
               ("messages",
                JObj [("values",
                       JArr [JObj [("role", JStr "user");
                                   ("content",
                                    dict_get config "prompt" (JStr ""))]])])])
        node_id (WorkflowStep.name step) "n8n-nodes-base.openAi"
        (13 # 10)%Q (450, position_y)
  | _ =>
      Node.mk
        (JObj [("functionCode", dict_get config "code" (JStr "return items;"))])
        node_id (WorkflowStep.name step) "n8n-nodes-base.function"
        1%Q (450, position_y)
  end.

(** One turn of the loop body on the connections dict: create the entry of
    [previous_node] when it is missing, then append to its list. *)
Definition connect (previous_node : string) (c : Connection.t)
    (connections : gmap string (list Connection.t))
  : gmap string (list Connection.t) :=
  <[previous_node := default [] (connections !! previous_node) ++ [c]]>
    connections.

(** [for i, step in enumerate(workflow.steps)], from index [i] on: the
    steps are visited in the order of the list. *)
Fixpoint convert_steps (i : nat) (steps : list WorkflowStep.t)
    (nodes : list Node.t) (connections : gmap string (list Connection.t))
    (previous_node : string)
  : list Node.t * gmap string (list Connection.t) :=
  match steps with
  | [] => (nodes, connections)
  | step :: rest =>
      let step_node := _create_step_node step i in
      convert_steps (S i) rest
        (nodes ++ [step_node])
        (connect previous_node
           (Connection.mk (Node.name step_node) "main" 0) connections)
        (Node.name step_node)
  end.

Definition _convert_to_n8n_format (workflow : Workflow.t) : Graph.t :=
  let trigger_node :=
    _create_trigger_node (Workflow.trigger_type workflow)
      (Workflow.trigger_config workflow) in
  let r :=
    convert_steps 0 (Workflow.steps workflow) [trigger_node] ∅
      (Node.name trigger_node) in
  Graph.mk (Workflow.name workflow) true (fst r) (snd r)
    (JObj [("executionOrder", JStr "v1")]) (Workflow.tags workflow).

(** ** app/services/n8n_service.py: the engine gateway *)

(** The [data] object of [GET /api/v1/executions/{id}].  A key that may be
    missing is an option.  [finishedAt] is kept after
    [datetime.fromisoformat(s.replace("Z", "+00:00"))]: a string with a UTC
    offset (or a trailing Z) parses to an aware value, one without to a naive
    value, and anything else raises. *)
Inductive finished_at : Type :=
| FinishedMissing
| FinishedInvalid (msg : string)
| FinishedAt (d : datetime).

Module N8NExecution.
Record t : Type := mk {
  status : option string;
  data : option json;
  error : option string;
  finishedAt : finished_at
}.
End N8NExecution.

(** The outcome of each HTTP call of the gateway: [Raise] stands for any
    exception of the call itself, of [raise_for_status] and of reading the
    keys of the decoded answer. *)
Module Engine.
Record t : Type := mk {
  post_workflows : Graph.t → result string;
  patch_activate : string → result ();
  post_execute : string → json → result string;
  get_execution : string → result N8NExecution.t;
  delete_workflows : string → result ()
}.
End Engine.

(** What [get_execution_status] returns: the two-key dict of the early
    return and of the handler, or the five-key dict of the normal path. *)
Inductive status_report : Type :=
| ReportError (status : ExecutionStatus) (error : string)
| ReportStatus (status : ExecutionStatus) (step_results : json)
    (error_message : string) (started_at : datetime)
    (completed_at : option datetime).

Definition report_status (r : status_report) : ExecutionStatus :=
  match r with
  | ReportError s _ => s
  | ReportStatus s _ _ _ _ => s
  end.

(** [status_mapping.get(s, ExecutionStatus.FAILED)] *)
Definition status_mapping : gmap string ExecutionStatus :=
  <["running" := RUNNING]> (<["success" := SUCCESS]> (<["failed" := FAILED]>
    (<["canceled" := CANCELLED]> (<["waiting" := PENDING]> ∅)))).

Definition our_status_of (n8n_status : string) : ExecutionStatus :=
  dict_get status_mapping n8n_status FAILED.

(** [datetime.utcnow()] when the clock reads [now]: a naive value. *)
Definition utcnow (now : Z) : datetime := mk_datetime now None.

(** Truth value of a decoded JSON value. *)
Definition json_truthy (j : json) : bool :=
  match j with
  | JNull => false
  | JBool b => b
  | JInt z => negb (bool_decide (z = 0))
  | JFloat q => negb (bool_decide (Qnum q = 0))
  | JStr s => negb (bool_decide (s = ""))
  | JArr l => negb (bool_decide (l = []))
  | JObj l => negb (bool_decide (l = []))
  end.

(** [trigger_data or {}] *)
Definition or_empty (trigger_data : option json) : json :=
  match trigger_data with
  | Some j => if json_truthy j then j else JObj []
  | None => JObj []
  end.

(** The keys of [update_data] in [get_execution_status]; the last two are
    present only when the engine reports [finishedAt]. *)
Module UpdateData.
Record t : Type := mk {
  status : ExecutionStatus;
  step_results : json;
  error_message : string;
  completed_at : option datetime;
  duration_seconds : option Qc
}.

(** [{"$set": update_data}] on an execution document. *)
Definition set (u : t) (e : WorkflowExecution.t) : WorkflowExecution.t :=
  WorkflowExecution.mk
    (WorkflowExecution.id e)
    (WorkflowExecution.workflow_id e)
    (WorkflowExecution.user_id e)
    (status u)
    (WorkflowExecution.trigger_data e)
    (step_results u)
    (WorkflowExecution.output_data e)
    (Some (error_message u))
    (WorkflowExecution.started_at e)
    (match completed_at u with
     | Some d => Some d
     | None => WorkflowExecution.completed_at e
     end)
    (match duration_seconds u with
     | Some d => Some d
     | None => WorkflowExecution.duration_seconds e
     end)
    (WorkflowExecution.n8n_execution_id e).
End UpdateData.

Module N8NService.

Definition _activate_n8n_workflow (E : Engine.t) (n8n_workflow_id : string)
  : result () :=
  match Engine.patch_activate E n8n_workflow_id with
  | Ok _ => Ok ()
  | Raise e => Raise ("Failed to activate n8n workflow: " +:+ e)
  end.

Definition create_n8n_workflow (E : Engine.t) (workflow : Workflow.t)
  : result string :=
  let n8n_workflow_data := _convert_to_n8n_format workflow in
  match
    n8n_workflow_id ← Engine.post_workflows E n8n_workflow_data;
    _ ← _activate_n8n_workflow E n8n_workflow_id;
    Ok n8n_workflow_id
  with
  | Ok n8n_workflow_id => Ok n8n_workflow_id
  | Raise e => Raise ("Failed to create n8n workflow: " +:+ e)
  end.

(** [uuid] is the id the new execution record draws, [now] the reading of
    the clock when it is built. *)
Definition execute_workflow (E : Engine.t) (uuid : string) (now : Z)
    (db : DB) (workflow_id : string) (trigger_data : option json)
  : DB * result string :=
  match find_one (λ w, Workflow.id w = workflow_id) (workflows db) with
  | None => (db, Raise "Workflow not found")
  | Some workflow =>
    match Workflow.n8n_workflow_id workflow with
    | Some n8n_workflow_id =>
      if bool_decide (n8n_workflow_id = "") then
        (db, Raise "Workflow not deployed to n8n")
      else
        match
          Engine.post_execute E n8n_workflow_id (or_empty trigger_data)
        with
        | Raise e => (db, Raise ("Failed to execute n8n workflow: " +:+ e))
        | Ok n8n_execution_id =>
          match or_empty trigger_data with
          | JObj _ =>
            let execution :=
              WorkflowExecution.mk uuid workflow_id
                (Workflow.user_id workflow) RUNNING (or_empty trigger_data)
                (JObj []) (JObj []) None (utcnow now) None None
                (Some n8n_execution_id) in
            (with_executions db (workflow_executions db ++ [execution]),
             Ok (WorkflowExecution.id execution))
          | _ =>
            (db, Raise ("Failed to execute n8n workflow: "
                          +:+ "trigger_data: value is not a valid dict"))
          end
        end
    | None => (db, Raise "Workflow not deployed to n8n")
    end
  end.

(** The body of the [try] of [get_execution_status] up to the write: the
    update it builds from the engine's answer, or the exception. *)
Definition build_update (execution : WorkflowExecution.t)
    (n8n_execution : N8NExecution.t) : result UpdateData.t :=
  match N8NExecution.status n8n_execution with
  | None => Raise "'status'"
  | Some n8n_status =>
    let our_status := our_status_of n8n_status in
    let step_results := default (JObj []) (N8NExecution.data n8n_execution) in
    let error_message := default "" (N8NExecution.error n8n_execution) in
    match N8NExecution.finishedAt n8n_execution with
    | FinishedMissing =>
        Ok (UpdateData.mk our_status step_results error_message None None)
    | FinishedInvalid msg => Raise msg
    | FinishedAt completed_at =>
        delta ← datetime_sub completed_at
                  (WorkflowExecution.started_at execution);
        Ok (UpdateData.mk our_status step_results error_message
              (Some completed_at) (Some (total_seconds delta)))
    end
  end.

(** [get_execution_status], from the parsed document on.  The parse of the
    stored document at the head of the function raises, ahead of the [try],
    on a document that the class does not accept; the statements that fix
    what a poll writes or counts after asking the engine take the accepted
    document as a hypothesis ([WorkflowExecution_valid], below). *)
Definition get_execution_status (E : Engine.t) (db : DB)
    (execution_id : string) : DB * result status_report :=
  match
    find_one (λ e, WorkflowExecution.id e = execution_id)
      (workflow_executions db)
  with
  | None => (db, Raise "Execution not found")
  | Some execution =>
    if negb (truthy (WorkflowExecution.n8n_execution_id execution)) then
      (db, Ok (ReportError (WorkflowExecution.status execution)
                 "No n8n execution ID"))
    else
      match
        n8n_execution ←
          Engine.get_execution E
            (default "" (WorkflowExecution.n8n_execution_id execution));
        build_update execution n8n_execution
      with
      | Raise e => (db, Ok (ReportError FAILED e))
      | Ok update_data =>
        (with_executions db
           (update_one (λ e, WorkflowExecution.id e = execution_id)
              (UpdateData.set update_data) (workflow_executions db)),
         Ok (ReportStatus
               (UpdateData.status update_data)
               (UpdateData.step_results update_data)
               (UpdateData.error_message update_data)
               (WorkflowExecution.started_at execution)
               (UpdateData.completed_at update_data)))
      end
  end.

Definition delete_n8n_workflow (E : Engine.t) (n8n_workflow_id : string)
  : result () :=
  match Engine.delete_workflows E n8n_workflow_id with
  | Ok _ => Ok ()
  | Raise e => Raise ("Failed to delete n8n workflow: " +:+ e)
  end.

(** [webhook_url] is the setting [N8N_WEBHOOK_URL]; [format] is the text an
    f-string inserts for a decoded value. *)
Definition get_workflow_webhook_url (webhook_url : string)
    (format : json → string) (db : DB) (workflow_id : string)
  : result string :=
  match find_one (λ w, Workflow.id w = workflow_id) (workflows db) with
  | None => Raise "Workflow not found"
  | Some workflow =>
    if bool_decide (Workflow.trigger_type workflow ≠ WEBHOOK) then
      Raise "Workflow is not webhook-triggered"
    else if negb (truthy (Workflow.n8n_workflow_id workflow)) then
      Raise "Workflow not deployed to n8n"
    else
      let webhook_path :=
        dict_get (Workflow.trigger_config workflow) "path" (JStr "webhook") in
      Ok (webhook_url +:+ "/webhook/" +:+ format webhook_path)
  end.

End N8NService.

(** The instant a BSON date holds for a [datetime]: milliseconds since the
    epoch in UTC, a naive value being taken as UTC and the microseconds
    below the millisecond dropped.  Filters and sorts on a date field
    compare these. *)
Definition bson_millis (d : datetime) : Z :=
  (wall d - default 0 (tzinfo d)) `div` 1000.

Module WorkflowExecutionResponse.
Record t : Type := mk {
  id : string;
  workflow_id : string;
  status : ExecutionStatus;
  started_at : datetime;
  completed_at : option datetime;
  duration_seconds : option Qc;
  error_message : option string
}.

End WorkflowExecutionResponse.

(** The order of [sort("started_at", -1)]: the later start first. *)
Definition most_recent_first (a b : WorkflowExecution.t) : Prop :=
  bson_millis (WorkflowExecution.started_at b)
  ≤ bson_millis (WorkflowExecution.started_at a).

#[global] Instance most_recent_first_dec a b :
  Decision (most_recent_first a b).
Proof. unfold most_recent_first. apply _. Defined.

(** ** app/services/workflow_service.py *)

Module DeployResult.
Record t : Type := mk {
  status : string;
  n8n_workflow_id : string;
  webhook_url : option string
}.
End DeployResult.

Module WorkflowService.

(** The filter [{"id": workflow_id, "user_id": user_id}]. *)
Definition owned (workflow_id user_id : string) (w : Workflow.t) : Prop :=
  Workflow.id w = workflow_id ∧ Workflow.user_id w = user_id.

#[global] Instance owned_dec workflow_id user_id w :
  Decision (owned workflow_id user_id w).
Proof. unfold owned. apply _. Defined.

(** [uuid] is the id the new workflow draws; [now] and [now'] are the two
    readings of the clock for [created_at] and [updated_at]. *)
Definition create_workflow (uuid : string) (now now' : Z) (db : DB)
    (user_id team_id : string) (workflow_data : WorkflowCreate.t)
  : DB * WorkflowResponse.t :=
  let workflow :=
    Workflow.mk uuid user_id team_id
      (WorkflowCreate.name workflow_data)
      (WorkflowCreate.description workflow_data)
      (WorkflowCreate.trigger_type workflow_data)
      (WorkflowCreate.trigger_config workflow_data)
      [] None None DRAFT false [] 1 30 (utcnow now) (utcnow now') in
  (with_workflows db (workflows db ++ [workflow]),
   WorkflowResponse.of_workflow workflow).

Definition get_workflow (db : DB) (workflow_id user_id : string)
  : option Workflow.t :=
  find_one (owned workflow_id user_id) (workflows db).

(** [{"$set": update_dict}]: the keys of [update_data] that are not [None],
    and [updated_at]. *)
Definition apply_update (update_data : WorkflowUpdate.t) (now : Z)
    (w : Workflow.t) : Workflow.t :=
  Workflow.set_updated_at (utcnow now)
    (Workflow.set_status
       (default (Workflow.status w) (WorkflowUpdate.status update_data))
       (Workflow.set_details
          (default (Workflow.name w) (WorkflowUpdate.name update_data))
          (match WorkflowUpdate.description update_data with
           | Some d => Some d
           | None => Workflow.description w
           end)
          (default (Workflow.trigger_config w)
             (WorkflowUpdate.trigger_config update_data))
          w)).

Definition update_workflow (now : Z) (db : DB) (workflow_id user_id : string)
    (update_data : WorkflowUpdate.t) : DB * result WorkflowResponse.t :=
  if matched (owned workflow_id user_id) (workflows db) then
    let db' :=
      with_workflows db
        (update_one (owned workflow_id user_id)
           (apply_update update_data now) (workflows db)) in
    match get_workflow db' workflow_id user_id with
    | Some updated_workflow =>
        (db', Ok (WorkflowResponse.of_workflow updated_workflow))
    | None => (db', Raise "'NoneType' object has no attribute 'id'")
    end
  else (db, Raise "Workflow not found").

Definition add_workflow_step (now : Z) (db : DB) (workflow_id user_id : string)
    (step : WorkflowStep.t) : DB * result WorkflowStep.t :=
  match find_one (owned workflow_id user_id) (workflows db) with
  | None => (db, Raise "Workflow not found")
  | Some workflow =>
    let step :=
      WorkflowStep.set_order (Z.of_nat (length (Workflow.steps workflow)))
        step in
    (with_workflows db
       (update_one (owned workflow_id user_id)
          (λ w, Workflow.set_updated_at (utcnow now)
                  (Workflow.set_steps (Workflow.steps w ++ [step]) w))
          (workflows db)),
     Ok step)
  end.

(** The positional [steps.$.key] writes: the first step of the array whose
    id is [step_id] takes every assignment of [step_update]; an empty
    [step_update] writes nothing. *)
Definition update_steps (step_id : string)
    (step_update : list WorkflowStep.assignment)
    (steps : list WorkflowStep.t) : list WorkflowStep.t :=
  update_one (λ s, WorkflowStep.id s = step_id)
    (λ s, foldl WorkflowStep.assign s step_update) steps.

Definition update_workflow_step (db : DB) (workflow_id user_id step_id : string)
    (step_update : list WorkflowStep.assignment) : DB * bool :=
  let filter_ w :=
    owned workflow_id user_id w
    ∧ Exists (λ s, WorkflowStep.id s = step_id) (Workflow.steps w) in
  let update w :=
    Workflow.set_steps (update_steps step_id step_update (Workflow.steps w)) w in
  (with_workflows db (update_one filter_ update (workflows db)),
   modified filter_ update (workflows db)).

Definition remove_workflow_step (now : Z) (db : DB)
    (workflow_id user_id step_id : string) : DB * bool :=
  let update w :=
    Workflow.set_updated_at (utcnow now)
      (Workflow.set_steps
         (filter (λ s, WorkflowStep.id s ≠ step_id) (Workflow.steps w)) w) in
  (with_workflows db
     (update_one (owned workflow_id user_id) update (workflows db)),
   modified (owned workflow_id user_id) update (workflows db)).

(** [now] is the clock at the write of the success path, [now'] at the
    write of the handler. *)
Definition deploy_workflow (E : Engine.t) (webhook_url : string)
    (format : json → string) (now now' : Z) (db : DB)
    (workflow_id user_id : string) : DB * result DeployResult.t :=
  match get_workflow db workflow_id user_id with
  | None => (db, Raise "Workflow not found")
  | Some workflow =>
    if bool_decide (Workflow.status workflow = ACTIVE) then
      (db, Raise "Workflow is already active")
    else
      let mark_error (db0 : DB) :=
        with_workflows db0
          (update_one (λ w, Workflow.id w = workflow_id)
             (λ w, Workflow.set_updated_at (utcnow now')
                     (Workflow.set_status ERROR w))
             (workflows db0)) in
      match N8NService.create_n8n_workflow E workflow with
      | Raise e => (mark_error db, Raise e)
      | Ok n8n_workflow_id =>
        let db1 :=
          with_workflows db
            (update_one (λ w, Workflow.id w = workflow_id)
               (λ w, Workflow.set_updated_at (utcnow now)
                       (Workflow.set_status ACTIVE
                          (Workflow.set_n8n_workflow_id
                             (Some n8n_workflow_id) w)))
               (workflows db)) in
        match
          if bool_decide (Workflow.trigger_type workflow = WEBHOOK) then
            url ← N8NService.get_workflow_webhook_url webhook_url format
                    db1 workflow_id;
            Ok (Some url)
          else Ok None
        with
        | Raise e => (mark_error db1, Raise e)
        | Ok url =>
            (db1, Ok (DeployResult.mk "deployed" n8n_workflow_id url))
        end
      end
  end.

Definition execute_workflow (E : Engine.t) (uuid : string) (now : Z)
    (db : DB) (workflow_id user_id : string) (trigger_data : option json)
  : DB * result string :=
  match get_workflow db workflow_id user_id with
  | None => (db, Raise "Workflow not found")
  | Some workflow =>
    if bool_decide (Workflow.status workflow ≠ ACTIVE) then
      (db, Raise "Workflow is not active")
    else N8NService.execute_workflow E uuid now db workflow_id trigger_data
  end.

Definition get_execution_status (E : Engine.t) (db : DB)
    (execution_id user_id : string) : DB * result status_report :=
  match
    find_one (λ e, WorkflowExecution.id e = execution_id
                   ∧ WorkflowExecution.user_id e = user_id)
      (workflow_executions db)
  with
  | None => (db, Raise "Execution not found")
  | Some _ => N8NService.get_execution_status E db execution_id
  end.

Definition pause_workflow (now : Z) (db : DB) (workflow_id user_id : string)
  : DB * bool :=
  let update w :=
    Workflow.set_updated_at (utcnow now) (Workflow.set_status PAUSED w) in
  (with_workflows db
     (update_one (owned workflow_id user_id) update (workflows db)),
   modified (owned workflow_id user_id) update (workflows db)).

Definition resume_workflow (now : Z) (db : DB) (workflow_id user_id : string)
  : DB * bool :=
  let update w :=
    Workflow.set_updated_at (utcnow now) (Workflow.set_status ACTIVE w) in
  (with_workflows db
     (update_one (owned workflow_id user_id) update (workflows db)),
   modified (owned workflow_id user_id) update (workflows db)).

Definition delete_workflow (E : Engine.t) (db : DB)
    (workflow_id user_id : string) : DB * bool :=
  match get_workflow db workflow_id user_id with
  | None => (db, false)
  | Some workflow =>
    (* the outcome of the engine call is dropped by the handler *)
    let _ :=
      if truthy (Workflow.n8n_workflow_id workflow) then
        match
          N8NService.delete_n8n_workflow E
            (default "" (Workflow.n8n_workflow_id workflow))
        with
        | Ok _ => ()
        | Raise _ => ()
        end
      else () in
    let db1 :=
      with_executions db
        (delete_many (λ e, WorkflowExecution.workflow_id e = workflow_id)
           (workflow_executions db)) in
    (with_workflows db1
       (delete_one (owned workflow_id user_id) (workflows db1)),
     matched (owned workflow_id user_id) (workflows db1))
  end.

(** [find({"user_id": user_id}).to_list(100)]: the first hundred workflows
    of the user, in the order of the collection. *)
Definition get_user_workflows (db : DB) (user_id : string)
  : list WorkflowResponse.t :=
  WorkflowResponse.of_workflow
  <$> take 100 (filter (λ w, Workflow.user_id w = user_id) (workflows db)).


End WorkflowService.

(** ** app/tasks/workflow_tasks.py *)

Module WorkflowTasks.

(** One turn of the loop of [monitor_workflow_executions_task]: the status
    of one execution is fetched, and it counts as updated when the report
    is not running; an exception of the call is printed and skipped. *)
Definition monitor_step (E : Engine.t) (acc : DB * nat)
    (execution : WorkflowExecution.t) : DB * nat :=
  match
    N8NService.get_execution_status E (fst acc)
      (WorkflowExecution.id execution)
  with
  | (db', Ok status_result) =>
      (db',
       if bool_decide (report_status status_result ≠ RUNNING)
       then S (snd acc) else snd acc)
  | (db', Raise _) => (db', snd acc)
  end.

(** [find({"status": "running"}).to_list(100)] *)
Definition running_executions (db : DB) : list WorkflowExecution.t :=
  take 100
    (filter (λ e, WorkflowExecution.status e = RUNNING)
       (workflow_executions db)).

(** The database after the poll and the [updated_executions] it reports. *)
Definition monitor_workflow_executions_task (E : Engine.t) (db : DB)
  : DB * nat :=
  foldl (monitor_step E) (db, 0%nat) (running_executions db).

(** [timedelta(days=30)] in microseconds. *)
Definition thirty_days : Z := 30 * 86400 * 1000000.

(** The filter [{"started_at": {"$lt": cutoff_date}}]. *)
Definition started_before (cutoff_date : datetime)
    (e : WorkflowExecution.t) : Prop :=
  bson_millis (WorkflowExecution.started_at e) < bson_millis cutoff_date.

#[global] Instance started_before_dec cutoff_date e :
  Decision (started_before cutoff_date e).
Proof. unfold started_before. apply _. Defined.

(** The database after the purge and the [deleted_executions] it reports;
    [now] is the reading of the clock. *)
Definition cleanup_old_executions_task (now : Z) (db : DB) : DB * nat :=
  let cutoff_date := mk_datetime (now - thirty_days) None in
  (with_executions db
     (delete_many (started_before cutoff_date) (workflow_executions db)),
   length (filter (started_before cutoff_date) (workflow_executions db))).

End WorkflowTasks.

(** ** app/api/webhooks.py *)

(** The body of a webhook request: empty, not JSON, or the decoded value. *)
Inductive request_body : Type :=
| EmptyBody
| MalformedBody (msg : string)
| JsonBody (j : json).

Module Webhooks.

(** [n8n_webhook]: the answer of the endpoint and the database once the
    background task has run.  The task is [execute_workflow] for the user
    "system"; what it returns or raises is not reported to the caller. *)
Definition n8n_webhook (E : Engine.t) (uuid : string) (now : Z) (db : DB)
    (workflow_id : string) (body : request_body)
  : DB * result (string * string) :=
  match body with
  | MalformedBody msg => (db, Raise msg)
  | _ =>
    let trigger_data :=
      match body with
      | JsonBody j => j
      | _ => JObj []
      end in
    (fst (WorkflowService.execute_workflow E uuid now db workflow_id "system"
            (Some trigger_data)),
     Ok ("webhook_received", workflow_id))
  end.

End Webhooks.

(** ** The properties of the specification, as predicates *)

(** An execution is terminal once success, failed or cancelled. *)
Definition terminal (s : ExecutionStatus) : Prop :=
  s = SUCCESS ∨ s = FAILED ∨ s = CANCELLED.

(** The engine statuses of the translation table. *)
Definition engine_statuses : list string :=
  ["running"; "success"; "failed"; "canceled"; "waiting"].

(** The step validation rule of the specification. *)
Definition InvalidStep (s : WorkflowStep.t) : Prop :=
  WorkflowStep.order s < 0
  ∨ WorkflowStep.timeout_seconds s ≤ 0
  ∨ WorkflowStep.on_error s ∉ ["stop"; "continue"; "retry"]
  ∨ (WorkflowStep.action_type s = INTEGRATION_ACTION
     ∧ WorkflowStep.integration_id s = None).

(** The order values of a workflow's steps. *)
Definition orders (steps : list WorkflowStep.t) : list Z :=
  WorkflowStep.order <$> steps.

(** Unique within the workflow and dense from 0: no order value occurs
    twice and each lies in [0, number of steps). *)
Definition orders_unique_dense (steps : list WorkflowStep.t) : Prop :=
  NoDup (orders steps)
  ∧ Forall (λ o, 0 ≤ o < Z.of_nat (length steps)) (orders steps).

(** The steps in ascending [order]: a stable insertion sort, equal order
    values keeping their relative position. *)
Fixpoint insert_by_order (s : WorkflowStep.t) (l : list WorkflowStep.t)
  : list WorkflowStep.t :=
  match l with
  | [] => [s]
  | x :: rest =>
      if bool_decide (WorkflowStep.order s ≤ WorkflowStep.order x)
      then s :: l
      else x :: insert_by_order s rest
  end.

Definition sorted_by_order (steps : list WorkflowStep.t)
  : list WorkflowStep.t :=
  foldr insert_by_order [] steps.

(** The connections of the linear chain n0 → n1 → ... → nk. *)
Fixpoint linear_chain (names : list string)
  : gmap string (list Connection.t) :=
  match names with
  | a :: (b :: _) as rest =>
      <[a := [Connection.mk b "main" 0]]> (linear_chain rest)
  | _ => ∅
  end.

(** The node names of a workflow in the order the translator visits them. *)
Definition node_names (workflow : Workflow.t) : list string :=
  Node.name (_create_trigger_node (Workflow.trigger_type workflow)
               (Workflow.trigger_config workflow))
  :: (WorkflowStep.name <$> Workflow.steps workflow).

(** The topology the specification asks for: the chain through the steps
    taken in ascending [order]. *)
Definition chain_in_ascending_order (workflow : Workflow.t)
  : gmap string (list Connection.t) :=
  linear_chain
    (Node.name (_create_trigger_node (Workflow.trigger_type workflow)
                  (Workflow.trigger_config workflow))
     :: (WorkflowStep.name <$> sorted_by_order (Workflow.steps workflow))).

(** ** Further properties, as predicates *)

(** The fields of an execution record that identify it and its dispatch. *)
Definition dispatch_fields (e : WorkflowExecution.t)
  : string * string * string * json * json * datetime * option string :=
  (WorkflowExecution.id e, WorkflowExecution.workflow_id e,
   WorkflowExecution.user_id e, WorkflowExecution.trigger_data e,
   WorkflowExecution.output_data e, WorkflowExecution.started_at e,
   WorkflowExecution.n8n_execution_id e).

(** [db'] differs from [db] at most in workflows that match the owner
    filter: the executions are the same, the workflows keep their number,
    ids and owners position by position, and every workflow outside the
    filter is in the one collection exactly when it is in the other. *)
Definition touches_only (workflow_id user_id : string) (db db' : DB) : Prop :=
  workflow_executions db' = workflow_executions db
  ∧ (λ w, (Workflow.id w, Workflow.user_id w)) <$> workflows db'
    = (λ w, (Workflow.id w, Workflow.user_id w)) <$> workflows db
  ∧ ∀ w, ¬ WorkflowService.owned workflow_id user_id w →
         w ∈ workflows db' ↔ w ∈ workflows db.

(** The number of edges of a connections dict. *)
Definition edge_count (connections : gmap string (list Connection.t)) : nat :=
  sum_list_with (λ entry, length (snd entry)) (map_to_list connections).

(** Two steps that the translator cannot tell apart: they agree on id,
    name, action type and config. *)
Definition same_for_translator (a b : WorkflowStep.t) : Prop :=
  WorkflowStep.id a = WorkflowStep.id b
  ∧ WorkflowStep.name a = WorkflowStep.name b
  ∧ WorkflowStep.action_type a = WorkflowStep.action_type b
  ∧ WorkflowStep.config a = WorkflowStep.config b.

(** A decoded value that is an object. *)
Definition is_object (j : json) : Prop :=
  match j with
  | JObj _ => True
  | _ => False
  end.

(** A stored execution document that the class [WorkflowExecution] accepts
    when a service reads it back: the three fields annotated
    [Dict[str, Any]] hold objects.  A status poll stores [step_results] as
    the engine sent it, so a stored document need not be of this kind. *)
Definition WorkflowExecution_valid (e : WorkflowExecution.t) : Prop :=
  is_object (WorkflowExecution.trigger_data e)
  ∧ is_object (WorkflowExecution.step_results e)
  ∧ is_object (WorkflowExecution.output_data e).

(** ** Sample data *)

Definition sample_step (id name : string) (a : ActionType) (order : Z)
  : WorkflowStep.t :=
  WorkflowStep.mk id name a None ∅ ∅ ∅ 300 0 "stop" order [].

Definition sample_workflow (id user_id : string) (t : TriggerType)
    (steps : list WorkflowStep.t) (n8n : option string) (s : WorkflowStatus)
  : Workflow.t :=
  Workflow.mk id user_id "team" "Digest" None t ∅ steps n8n None s false []
    1 30 (utcnow 0) (utcnow 0).

Definition sample_execution (id workflow_id : string) (s : ExecutionStatus)
    (completed_at : option datetime) (duration : option Qc)
    (n8n : option string) : WorkflowExecution.t :=
  WorkflowExecution.mk id workflow_id "alice" s (JObj []) (JObj []) (JObj [])
    None (utcnow 0) completed_at duration n8n.

(** An engine that accepts every call and answers [get_execution] with
    [answer]. *)
Definition sample_engine (answer : result N8NExecution.t) : Engine.t :=
  Engine.mk (λ _, Ok "n8n-1") (λ _, Ok ()) (λ _ _, Ok "run-1")
    (λ _, answer) (λ _, Ok ()).

(** An engine whose every call fails. *)
Definition failing_engine : Engine.t :=
  Engine.mk (λ _, Raise "503") (λ _, Raise "503") (λ _ _, Raise "503")
    (λ _, Raise "503") (λ _, Raise "503").

Definition step_A := sample_step "a" "A" API_CALL.
Definition step_B := sample_step "b" "B" AI_PROCESS.
Definition step_C := sample_step "c" "C" DATA_TRANSFORM.

Definition draft_db : DB :=
  mk_DB [sample_workflow "w1" "alice" MANUAL [] None DRAFT] [].

Definition deployed_db : DB :=
  mk_DB
    [sample_workflow "w1" "alice" MANUAL [step_A 0; step_B 1; step_C 2]
       (Some "n8n-1") ACTIVE;
     sample_workflow "w2" "bob" MANUAL [] None DRAFT]
    [sample_execution "x1" "w1" RUNNING None None (Some "run-1");
     sample_execution "x2" "w2" RUNNING None None (Some "run-2");
     sample_execution "x3" "w1" SUCCESS None None (Some "run-3")].

(** One execution that never received an engine id. *)
Definition undispatched_db : DB :=
  mk_DB [] [sample_execution "x1" "w1" PENDING None None None].

(** One execution already reconciled to success after 45 seconds. *)
Definition reconciled_db : DB :=
  mk_DB []
    [sample_execution "x1" "w1" SUCCESS (Some (utcnow 45000000))
       (Some (total_seconds 45000000)) (Some "run-1")].

(** A step body that breaks each rule of [InvalidStep]. *)
Definition invalid_body : StepBody.t :=
  StepBody.mk None (Some "A") (Some "integration_action") None None None None
    (Some 0) None (Some "explode") (Some (-1)) None.

(** A step body whose action type is no member of the enumeration. *)
Definition unknown_action_body : StepBody.t :=
  StepBody.mk None (Some "A") (Some "teleport") None None None None
    None None None None None.

(** The first workflow of [deployed_db] after its step "a" was given
    order 7: the steps are stored as A, B, C with orders 7, 1, 2. *)
Definition reordered_workflow : Workflow.t :=
  sample_workflow "w1" "alice" MANUAL [step_A 7; step_B 1; step_C 2]
    (Some "n8n-1") ACTIVE.

(** Steps A, B, C stored with orders 0, 1, 2. *)
Definition abc_workflow : Workflow.t :=
  sample_workflow "w1" "alice" MANUAL [step_A 0; step_B 1; step_C 2]
    (Some "n8n-1") ACTIVE.


Definition success_finished_at (t : Z) : N8NExecution.t :=
  N8NExecution.mk (Some "success") None None (FinishedAt (utcnow t)).

(** A success whose finish time carries the offset +00:00, as a timestamp
    ending in Z does after the replacement. *)
Definition success_finished_at_utc (t : Z) : N8NExecution.t :=
  N8NExecution.mk (Some "success") None None
    (FinishedAt (mk_datetime t (Some 0))).

(** A request that only sets the status. *)
Definition status_update (s : WorkflowStatus) : WorkflowUpdate.t :=
  WorkflowUpdate.mk None None None (Some s).

(** A step body with a negative order and a zero timeout, and nothing else
    out of the ordinary: an API call with the error policy "stop". *)
Definition negative_order_body : StepBody.t :=
  StepBody.mk None (Some "A") (Some "api_call") None None None None
    (Some 0) None (Some "stop") (Some (-1)) None.

(** The engine reporting an execution as running again, with step data and
    without a finish time. *)
Definition running_without_finish : N8NExecution.t :=
  N8NExecution.mk (Some "running") (Some (JArr [JInt 1; JInt 2])) None
    FinishedMissing.

(** ** Lemmas on collections *)

Section CollectionLemmas.
Context {A : Type} (P : A → Prop) `{!∀ x, Decision (P x)}.

Lemma find_one_cons (x : A) (l : list A) :
  find_one P (x :: l) = if decide (P x) then Some x else find_one P l.
Proof.
  unfold find_one. rewrite filter_cons. by destruct (decide (P x)).
Qed.

Lemma find_one_Some (l : list A) (x : A) :
  find_one P l = Some x →
  P x ∧ ∃ l1 l2, l = l1 ++ x :: l2 ∧ Forall (λ y, ¬ P y) l1.
Proof.
  induction l as [|y l IH]; [done |].
  rewrite find_one_cons. destruct (decide (P y)) as [Hy | Hy].
  - intros [= ->]. split; [done |]. by exists [], l.
  - intros Hx. destruct (IH Hx) as (HP & l1 & l2 & -> & Hl1).
    split; [done |]. exists (y :: l1), l2. split; [done |].
    by constructor.
Qed.

Lemma find_one_update_one (f : A → A) (l : list A) :
  (∀ x, P x → P (f x)) →
  find_one P (update_one P f l) = f <$> find_one P l.
Proof.
  intros Hf. induction l as [|y l IH]; [done |].
  rewrite find_one_cons. simpl. destruct (decide (P y)) as [Hy | Hy].
  - rewrite find_one_cons. by rewrite decide_True by auto.
  - rewrite find_one_cons. by rewrite decide_False by done.
Qed.

Lemma update_one_idemp (f g : A → A) (l : list A) :
  (∀ x, P x → P (f x)) →
  (∀ x, P x → g (f x) = f x) →
  update_one P g (update_one P f l) = update_one P f l.
Proof.
  intros Hf Hg. induction l as [|y l IH]; [done |].
  simpl. destruct (decide (P y)) as [Hy | Hy]; simpl.
  - rewrite decide_True by auto. by rewrite Hg.
  - rewrite decide_False by done. by rewrite IH.
Qed.

Lemma delete_one_Some (l : list A) (x : A) :
  find_one P l = Some x →
  ∃ l1 l2, l = l1 ++ x :: l2 ∧ delete_one P l = l1 ++ l2.
Proof.
  induction l as [|y l IH]; [done |].
  rewrite find_one_cons. simpl. destruct (decide (P y)) as [Hy | Hy].
  - intros [= ->]. by exists [], l.
  - intros Hx. destruct (IH Hx) as (l1 & l2 & -> & Hd).
    exists (y :: l1), l2. split; [done |]. simpl. by rewrite Hd.
Qed.

Lemma find_one_is_Some (l : list A) (x : A) :
  x ∈ l → P x → is_Some (find_one P l).
Proof.
  intros Hin HP. induction Hin as [x l | x y l Hin IH];
    rewrite find_one_cons.
  - by rewrite decide_True.
  - destruct (decide (P y)); [done | by apply IH].
Qed.

Lemma find_one_elem_of (l : list A) (x : A) :
  find_one P l = Some x → x ∈ l.
Proof.
  intros Hx. destruct (find_one_Some l x Hx) as (_ & l1 & l2 & -> & _).
  apply elem_of_app. right. by left.
Qed.

Lemma matched_Some (l : list A) (x : A) :
  find_one P l = Some x → matched P l = true.
Proof.
  intros Hx. unfold matched. rewrite Hx. by apply bool_decide_eq_true.
Qed.

Lemma update_one_other (f : A → A) (l : list A) (x : A) :
  (∀ y, P y → P (f y)) → ¬ P x →
  x ∈ update_one P f l ↔ x ∈ l.
Proof.
  intros Hf Hx. induction l as [|y l IH]; [done |].
  simpl. destruct (decide (P y)) as [Hy | Hy].
  - rewrite !elem_of_cons. split; intros [-> | Hin]; auto.
    + destruct Hx. by apply Hf.
    + done.
  - rewrite !elem_of_cons, IH. done.
Qed.

End CollectionLemmas.

(** ** The engine-status translation *)

(** C5. The translation is the fixed table running→running,
    success→success, failed→failed, canceled→cancelled, waiting→pending,
    and every engine status outside the table maps to failed. *)
Theorem status_mapping_fail_closed (s : string) :
  s ∉ engine_statuses →
  our_status_of "running" = RUNNING
  ∧ our_status_of "success" = SUCCESS
  ∧ our_status_of "failed" = FAILED
  ∧ our_status_of "canceled" = CANCELLED
  ∧ our_status_of "waiting" = PENDING
  ∧ our_status_of s = FAILED.
Proof.
  intros Hs. repeat split; try reflexivity.
  unfold engine_statuses in Hs.
  repeat (apply not_elem_of_cons in Hs as [? Hs]).
  unfold our_status_of, dict_get, status_mapping.
  rewrite !lookup_insert_ne by done. by rewrite lookup_empty.
Qed.

Lemma status_mapping_fail_closed_witness :
  ("crashed" ∉ engine_statuses) ∧ our_status_of "crashed" = FAILED.
Proof.
  assert (H : "crashed" ∉ engine_statuses)
    by (apply (bool_decide_unpack _); vm_compute; reflexivity).
  split; [exact H |].
  apply (status_mapping_fail_closed "crashed" H).
Defined.

(** ** Reconciliation without an engine id *)

(** C6, as the code has it.  When the stored record has no engine
    execution id, [get_execution_status] reports the stored status, whatever
    it is, with the error "No n8n execution ID", and writes nothing. *)
Theorem missing_engine_id_reports_stored_status
    (E : Engine.t) (db : DB) (execution_id : string)
    (execution : WorkflowExecution.t) :
  find_one (λ e, WorkflowExecution.id e = execution_id)
    (workflow_executions db) = Some execution →
  truthy (WorkflowExecution.n8n_execution_id execution) = false →
  N8NService.get_execution_status E db execution_id
  = (db, Ok (ReportError (WorkflowExecution.status execution)
               "No n8n execution ID")).
Proof.
  intros Hfind Hid. unfold N8NService.get_execution_status.
  rewrite Hfind, Hid. reflexivity.
Qed.

Lemma missing_engine_id_reports_stored_status_witness :
  N8NService.get_execution_status failing_engine undispatched_db "x1"
  = (undispatched_db, Ok (ReportError PENDING "No n8n execution ID")).
Proof.
  apply (missing_engine_id_reports_stored_status failing_engine
           undispatched_db "x1"
           (sample_execution "x1" "w1" PENDING None None None));
    reflexivity.
Defined.

(** C6, as stated, fails: a pending record without an engine id is reported
    pending, not failed. *)
Lemma missing_engine_id_not_reported_failed :
  ¬ ∃ r, snd (N8NService.get_execution_status failing_engine
                undispatched_db "x1") = Ok r
         ∧ report_status r = FAILED.
Proof.
  intros (r & Hr & Hs). vm_compute in Hr.
  injection Hr as <-. discriminate Hs.
Qed.

(** ** Dispatch *)

(** The gateway either leaves the database as it is or appends exactly one
    running execution of the workflow it was asked to run. *)
Lemma n8n_execute_workflow_effect (E : Engine.t) (uuid : string) (now : Z)
    (db : DB) (workflow_id : string) (trigger_data : option json) :
  let db' :=
    fst (N8NService.execute_workflow E uuid now db workflow_id trigger_data) in
  db' = db
  ∨ ∃ execution,
      db' = with_executions db (workflow_executions db ++ [execution])
      ∧ WorkflowExecution.workflow_id execution = workflow_id
      ∧ WorkflowExecution.status execution = RUNNING.
Proof.
  unfold N8NService.execute_workflow.
  destruct (find_one _ (workflows db)) as [w|]; [| by left].
  destruct (Workflow.n8n_workflow_id w) as [i|]; [| by left].
  destruct (bool_decide (i = "")); [by left |].
  destruct (Engine.post_execute E i (or_empty trigger_data)); [| by left].
  destruct (or_empty trigger_data); try by left.
  right. eexists. simpl. by repeat split.
Qed.

(** C3. For a workflow whose status is not active, [execute_workflow] fails
    with "Workflow is not active" and leaves the database as it was; and a
    call either changes nothing or found the workflow active and appended
    one running execution of it. *)
Theorem execute_requires_active (E : Engine.t) (uuid : string) (now : Z)
    (db : DB) (workflow_id user_id : string) (trigger_data : option json) :
  let r :=
    WorkflowService.execute_workflow E uuid now db workflow_id user_id
      trigger_data in
  (∀ workflow,
     WorkflowService.get_workflow db workflow_id user_id = Some workflow →
     Workflow.status workflow ≠ ACTIVE →
     r = (db, Raise "Workflow is not active"))
  ∧ (fst r = db
     ∨ ∃ workflow execution,
         WorkflowService.get_workflow db workflow_id user_id = Some workflow
         ∧ Workflow.status workflow = ACTIVE
         ∧ fst r
           = with_executions db (workflow_executions db ++ [execution])
         ∧ WorkflowExecution.workflow_id execution = workflow_id
         ∧ WorkflowExecution.status execution = RUNNING).
Proof.
  intros r. subst r. unfold WorkflowService.execute_workflow. split.
  - intros w -> Hs. by rewrite bool_decide_eq_true_2.
  - destruct (WorkflowService.get_workflow db workflow_id user_id) as [w|];
      [| by left].
    destruct (decide (Workflow.status w = ACTIVE)) as [Hs | Hs].
    + rewrite bool_decide_eq_false_2 by (by intros ?).
      destruct (n8n_execute_workflow_effect E uuid now db workflow_id
                  trigger_data) as [Hsame | (x & Hx & Hw & Hr)].
      * by left.
      * right. by exists w, x.
    + rewrite bool_decide_eq_true_2 by done. by left.
Qed.

Lemma execute_requires_active_witness :
  WorkflowService.get_workflow draft_db "w1" "alice"
  = Some (sample_workflow "w1" "alice" MANUAL [] None DRAFT)
  ∧ Workflow.status (sample_workflow "w1" "alice" MANUAL [] None DRAFT)
    ≠ ACTIVE
  ∧ WorkflowService.execute_workflow (sample_engine (Raise "unused")) "x9" 7
      draft_db "w1" "alice" None
    = (draft_db, Raise "Workflow is not active").
Proof.
  assert (H1 : WorkflowService.get_workflow draft_db "w1" "alice"
               = Some (sample_workflow "w1" "alice" MANUAL [] None DRAFT))
    by reflexivity.
  assert (H2 : Workflow.status
                 (sample_workflow "w1" "alice" MANUAL [] None DRAFT) ≠ ACTIVE)
    by discriminate.
  split; [exact H1 | split; [exact H2 |]].
  exact (proj1 (execute_requires_active (sample_engine (Raise "unused")) "x9"
                  7 draft_db "w1" "alice" None) _ H1 H2).
Defined.

(** ** Deletion *)

(** C8. For a workflow found by its id and owner, [delete_workflow] removes
    every execution whose [workflow_id] is that id, keeps every other
    execution, removes the workflow document, and reports success; the
    outcome is the same for every engine, in particular for one whose
    delete call fails. *)
Theorem delete_workflow_cascades (E : Engine.t) (db : DB)
    (workflow_id user_id : string) (workflow : Workflow.t) :
  WorkflowService.get_workflow db workflow_id user_id = Some workflow →
  let r := WorkflowService.delete_workflow E db workflow_id user_id in
  r = WorkflowService.delete_workflow failing_engine db workflow_id user_id
  ∧ snd r = true
  ∧ (∀ e, e ∈ workflow_executions (fst r) ↔
          e ∈ workflow_executions db
          ∧ WorkflowExecution.workflow_id e ≠ workflow_id)
  ∧ ∃ l1 l2,
      workflows db = l1 ++ workflow :: l2 ∧ workflows (fst r) = l1 ++ l2.
Proof.
  intros Hget r. subst r. unfold WorkflowService.delete_workflow.
  rewrite Hget. simpl. split; [done |]. split; [| split].
  - by apply matched_Some with workflow.
  - intros e. unfold delete_many. rewrite list_elem_of_filter. tauto.
  - by apply delete_one_Some.
Qed.

Lemma delete_workflow_cascades_witness :
  WorkflowService.get_workflow deployed_db "w1" "alice"
  = Some (sample_workflow "w1" "alice" MANUAL [step_A 0; step_B 1; step_C 2]
            (Some "n8n-1") ACTIVE)
  ∧ snd (WorkflowService.delete_workflow failing_engine deployed_db "w1"
           "alice") = true.
Proof.
  split; [reflexivity |].
  exact (proj1 (proj2 (delete_workflow_cascades failing_engine deployed_db
                         "w1" "alice" _ eq_refl))).
Defined.

(** On the sample database the failing engine leaves only the other
    workflow and its execution. *)
Example delete_workflow_sample :
  WorkflowService.delete_workflow failing_engine deployed_db "w1" "alice"
  = (mk_DB [sample_workflow "w2" "bob" MANUAL [] None DRAFT]
       [sample_execution "x2" "w2" RUNNING None None (Some "run-2")],
     true).
Proof. reflexivity. Qed.

(** ** Step validation *)

Lemma ActionType_of_value_Some (s : string) (a : ActionType) :
  ActionType_of_value s = Some a ↔ s = ActionType_value a.
Proof.
  unfold ActionType_of_value. split.
  - intros H. apply head_Some_elem_of, list_elem_of_filter in H as [H _].
    done.
  - intros ->. by destruct a.
Qed.

(** Every step is stored as given, but for its order. *)
Lemma add_workflow_step_result (now : Z) (db : DB)
    (workflow_id user_id : string) (step : WorkflowStep.t) :
  snd (WorkflowService.add_workflow_step now db workflow_id user_id step)
  = match WorkflowService.get_workflow db workflow_id user_id with
    | Some workflow =>
        Ok (WorkflowStep.set_order
              (Z.of_nat (length (Workflow.steps workflow))) step)
    | None => Raise "Workflow not found"
    end.
Proof.
  unfold WorkflowService.add_workflow_step, WorkflowService.get_workflow.
  by destruct (find_one _ _).
Qed.

(** C9, as the code has it.  Step validation is the type check of the class
    and knows no range: for a body whose fields have the annotated types,
    building a step fails when the name is missing or the action type is
    missing or no member of the enumeration; and a body that names a member
    of the enumeration, keeps the error policy within stop, continue and
    retry, and gives an integration reference for an integration action is
    accepted whatever its order and timeout, the step carrying both as
    given (or the declared defaults 0 and 300). *)
Theorem step_init_has_no_range_check (uuid : string) (body : StepBody.t) :
  (StepBody.name body = None
   ∨ (∀ a, StepBody.action_type body ≠ Some (ActionType_value a)) →
   is_Raise (WorkflowStep_init uuid body))
  ∧ (∀ a,
       StepBody.name body ≠ None →
       StepBody.action_type body = Some (ActionType_value a) →
       default "stop" (StepBody.on_error body)
       ∈ ["stop"; "continue"; "retry"] →
       (a = INTEGRATION_ACTION → StepBody.integration_id body ≠ None) →
       ∃ step,
         WorkflowStep_init uuid body = Ok step
         ∧ WorkflowStep.action_type step = a
         ∧ WorkflowStep.order step = default 0 (StepBody.order body)
         ∧ WorkflowStep.timeout_seconds step
           = default 300 (StepBody.timeout_seconds body)).
Proof.
  unfold WorkflowStep_init. split.
  - intros [Hname | Haction].
    + by rewrite Hname.
    + destruct (StepBody.name body) as [n|]; [| done].
      destruct (StepBody.action_type body) as [s|]; [| done].
      destruct (ActionType_of_value s) as [a|] eqn:Ha; [| done].
      apply ActionType_of_value_Some in Ha as ->. by destruct (Haction a).
  - intros a Hname Haction _ _.
    destruct (StepBody.name body) as [n|]; [| done].
    rewrite Haction.
    rewrite (proj2 (ActionType_of_value_Some (ActionType_value a) a) eq_refl).
    eexists. by repeat split.
Qed.

Lemma step_init_has_no_range_check_witness :
  ∃ step,
    WorkflowStep_init "u1" negative_order_body = Ok step
    ∧ WorkflowStep.order step = -1
    ∧ WorkflowStep.timeout_seconds step = 0.
Proof.
  destruct (proj2 (step_init_has_no_range_check "u1" negative_order_body)
              API_CALL)
    as (step & Hok & _ & Horder & Htimeout).
  - discriminate.
  - reflexivity.
  - apply (bool_decide_unpack _). vm_compute. reflexivity.
  - discriminate.
  - exists step. split; [exact Hok |]. split; [exact Horder | exact Htimeout].
Defined.

(** C9, as stated, fails: an API call with the error policy "stop", a
    negative order and a zero timeout is accepted. *)
Lemma negative_order_step_accepted :
  ∃ step,
    WorkflowStep_init "u1" negative_order_body = Ok step
    ∧ WorkflowStep.action_type step = API_CALL
    ∧ WorkflowStep.on_error step = "stop"
    ∧ WorkflowStep.order step < 0
    ∧ WorkflowStep.timeout_seconds step ≤ 0
    ∧ InvalidStep step.
Proof.
  eexists. split; [reflexivity |]. simpl.
  repeat split; try lia. left. simpl. lia.
Qed.

(** A body that breaks, besides, the two rules the comments of the class
    state (the error policy is one of stop, continue and retry; an
    integration action needs an integration reference) is accepted as
    well. *)
Lemma invalid_step_accepted :
  ∃ step, WorkflowStep_init "u1" invalid_body = Ok step ∧ InvalidStep step.
Proof.
  eexists. split; [reflexivity |]. left. simpl. lia.
Qed.

(** ** Step ordering *)

(** An update that keeps the owner filter true changes the document
    [get_workflow] returns, and only in the way of the update. *)
Lemma get_workflow_update_one (f : Workflow.t → Workflow.t) (db : DB)
    (workflow_id user_id : string) (workflow : Workflow.t) :
  (∀ w, Workflow.id (f w) = Workflow.id w
        ∧ Workflow.user_id (f w) = Workflow.user_id w) →
  WorkflowService.get_workflow db workflow_id user_id = Some workflow →
  WorkflowService.get_workflow
    (with_workflows db
       (update_one (WorkflowService.owned workflow_id user_id) f
          (workflows db)))
    workflow_id user_id
  = Some (f workflow).
Proof.
  intros Hf Hget. unfold WorkflowService.get_workflow in *. simpl.
  rewrite find_one_update_one, Hget; [done |].
  intros w [Hi Hu]. destruct (Hf w) as [Hi' Hu'].
  split; congruence.
Qed.

Lemma orders_app (l1 l2 : list WorkflowStep.t) :
  orders (l1 ++ l2) = orders l1 ++ orders l2.
Proof. apply fmap_app. Qed.

(** Appending at order = number of steps keeps the orders unique and
    dense. *)
Lemma orders_unique_dense_snoc (steps : list WorkflowStep.t)
    (step : WorkflowStep.t) :
  orders_unique_dense steps →
  orders_unique_dense
    (steps ++ [WorkflowStep.set_order (Z.of_nat (length steps)) step]).
Proof.
  intros [Hnd Hb]. unfold orders_unique_dense.
  rewrite orders_app, length_app. simpl. split.
  - apply NoDup_app. split; [done |]. split; [| apply NoDup_singleton].
    intros o Ho Hn. apply list_elem_of_singleton in Hn as ->.
    rewrite Forall_forall in Hb. specialize (Hb _ Ho). lia.
  - apply Forall_app. split.
    + eapply Forall_impl; [exact Hb |]. simpl. lia.
    + apply Forall_singleton. lia.
Qed.

(** Removing steps keeps the order values of the others, hence unique. *)
Lemma orders_filter_NoDup (P : WorkflowStep.t → Prop)
    `{!∀ s, Decision (P s)} (steps : list WorkflowStep.t) :
  NoDup (orders steps) → NoDup (orders (filter P steps)).
Proof.
  unfold orders. induction steps as [|s steps IH]; [done |].
  rewrite fmap_cons, NoDup_cons. intros [Hs Hnd].
  rewrite filter_cons. destruct (decide (P s)); [| by apply IH].
  rewrite fmap_cons, NoDup_cons. split; [| by apply IH].
  intros Hin. apply Hs.
  apply list_elem_of_fmap in Hin as (x & -> & Hx).
  apply list_elem_of_fmap. exists x. split; [done |].
  by apply list_elem_of_filter in Hx as [_ ?].
Qed.

(** Assignments other than [SetOrder] keep the order of a step. *)
Lemma assign_order (step : WorkflowStep.t)
    (step_update : list WorkflowStep.assignment) :
  (∀ v, WorkflowStep.SetOrder v ∉ step_update) →
  WorkflowStep.order (foldl WorkflowStep.assign step step_update)
  = WorkflowStep.order step.
Proof.
  revert step. induction step_update as [|a l IH]; [done |].
  intros step Hno. simpl. rewrite IH.
  - destruct a; try done. destruct (Hno v). by left.
  - intros v Hv. apply (Hno v). by right.
Qed.

Lemma update_steps_orders (step_id : string)
    (step_update : list WorkflowStep.assignment)
    (steps : list WorkflowStep.t) :
  (∀ v, WorkflowStep.SetOrder v ∉ step_update) →
  orders (WorkflowService.update_steps step_id step_update steps)
  = orders steps.
Proof.
  intros Hno. unfold WorkflowService.update_steps, orders.
  induction steps as [|s steps IH]; [done |].
  simpl. destruct (decide (WorkflowStep.id s = step_id)).
  - by rewrite !fmap_cons, assign_order.
  - by rewrite !fmap_cons, IH.
Qed.

(** A write through a narrower filter, seen through the wider one: the
    first match of the wider filter takes the update when it also matches
    the narrower one, and is left alone otherwise. *)
Lemma find_one_update_one_narrower {A : Type} (P Q : A → Prop)
    `{!∀ x, Decision (P x)} `{!∀ x, Decision (Q x)}
    (f : A → A) (l : list A) (x : A) :
  (∀ y, Q y → P y) → (∀ y, P y → P (f y)) →
  find_one P l = Some x →
  find_one P (update_one Q f l) = Some (if decide (Q x) then f x else x).
Proof.
  intros HQP Hf. induction l as [|y l IH]; [done |].
  rewrite find_one_cons. cbn [update_one].
  destruct (decide (P y)) as [HPy | HPy].
  - intros [= ->]. destruct (decide (Q x)) as [HQx | HQx].
    + by rewrite find_one_cons, decide_True by auto.
    + by rewrite find_one_cons, decide_True by done.
  - intros Hx. rewrite decide_False by auto.
    rewrite find_one_cons, decide_False by done. auto.
Qed.

Lemma update_one_no_match {A : Type} (P : A → Prop)
    `{!∀ x, Decision (P x)} (f : A → A) (l : list A) :
  ¬ Exists P l → update_one P f l = l.
Proof.
  induction l as [|x l IH]; [done |]. intros Hno.
  cbn [update_one]. destruct (decide (P x)) as [Hx | Hx].
  - destruct Hno. by left.
  - rewrite IH; [done |]. intros Hex. apply Hno. by right.
Qed.

(** The steps of the owner's workflow after a step update: the positional
    write applied to them. *)
Lemma update_workflow_step_steps (db : DB)
    (workflow_id user_id step_id : string)
    (step_update : list WorkflowStep.assignment) (workflow : Workflow.t) :
  WorkflowService.get_workflow db workflow_id user_id = Some workflow →
  Workflow.steps
  <$> WorkflowService.get_workflow
        (fst (WorkflowService.update_workflow_step db workflow_id user_id
                step_id step_update))
        workflow_id user_id
  = Some (WorkflowService.update_steps step_id step_update
            (Workflow.steps workflow)).
Proof.
  intros Hget.
  unfold WorkflowService.update_workflow_step, WorkflowService.get_workflow
    in *.
  simpl.
  rewrite (find_one_update_one_narrower
             (WorkflowService.owned workflow_id user_id) _ _ _ workflow);
    [| by intros y [? _] | by intros y [? ?] | done].
  simpl. destruct (decide _) as [_ | Hno]; [done |].
  simpl. f_equal. unfold WorkflowService.update_steps.
  rewrite update_one_no_match; [done |].
  intros Hex. apply Hno. split; [| done].
  by apply find_one_Some in Hget as [? _].
Qed.

(** C10, as the code has it.  [add_workflow_step] gives the new step
    order = current number of steps, appends it, and keeps the order values
    unique and dense from 0.  [remove_workflow_step] drops the steps with
    the given id and does not renumber the others: their order values stay
    unique.  [update_workflow_step] applies its assignments to the first
    step of the given id and to no other, which keeps the order values when
    the update assigns no order. *)
Theorem add_step_appends_at_step_count (now : Z) (db : DB)
    (workflow_id user_id : string) (workflow : Workflow.t)
    (step : WorkflowStep.t) (step_id : string)
    (step_update : list WorkflowStep.assignment) :
  WorkflowService.get_workflow db workflow_id user_id = Some workflow →
  let n := Z.of_nat (length (Workflow.steps workflow)) in
  let added :=
    WorkflowService.add_workflow_step now db workflow_id user_id step in
  let removed :=
    WorkflowService.remove_workflow_step now db workflow_id user_id step_id in
  let updated :=
    WorkflowService.update_workflow_step db workflow_id user_id step_id
      step_update in
  snd added = Ok (WorkflowStep.set_order n step)
  ∧ (Workflow.steps <$>
       WorkflowService.get_workflow (fst added) workflow_id user_id)
    = Some (Workflow.steps workflow ++ [WorkflowStep.set_order n step])
  ∧ (orders_unique_dense (Workflow.steps workflow) →
     orders_unique_dense
       (Workflow.steps workflow ++ [WorkflowStep.set_order n step]))
  ∧ (Workflow.steps <$>
       WorkflowService.get_workflow (fst removed) workflow_id user_id)
    = Some (filter (λ s, WorkflowStep.id s ≠ step_id)
              (Workflow.steps workflow))
  ∧ (NoDup (orders (Workflow.steps workflow)) →
     NoDup (orders (filter (λ s, WorkflowStep.id s ≠ step_id)
                      (Workflow.steps workflow))))
  ∧ (Workflow.steps <$>
       WorkflowService.get_workflow (fst updated) workflow_id user_id)
    = Some (WorkflowService.update_steps step_id step_update
              (Workflow.steps workflow))
  ∧ ((∀ v, WorkflowStep.SetOrder v ∉ step_update) →
     (orders ∘ Workflow.steps <$>
        WorkflowService.get_workflow (fst updated) workflow_id user_id)
     = Some (orders (Workflow.steps workflow))).
Proof.
  intros Hget n added removed updated. subst n added removed updated.
  split; [| split; [| split; [| split; [| split; [| split]]]]].
  - by rewrite add_workflow_step_result, Hget.
  - unfold WorkflowService.add_workflow_step.
    unfold WorkflowService.get_workflow in Hget. rewrite Hget. simpl.
    rewrite (get_workflow_update_one _ db workflow_id user_id workflow);
      done.
  - apply orders_unique_dense_snoc.
  - unfold WorkflowService.remove_workflow_step. simpl.
    rewrite (get_workflow_update_one _ db workflow_id user_id workflow);
      done.
  - apply orders_filter_NoDup.
  - by apply update_workflow_step_steps.
  - intros Hno.
    pose proof (update_workflow_step_steps db workflow_id user_id step_id
                  step_update workflow Hget) as Hsteps.
    destruct (WorkflowService.get_workflow
                (fst (WorkflowService.update_workflow_step db workflow_id
                        user_id step_id step_update))
                workflow_id user_id) as [w|]; [| done].
    simpl in *. injection Hsteps as ->.
    by rewrite update_steps_orders.
Qed.

Lemma add_step_appends_at_step_count_witness :
  WorkflowService.get_workflow deployed_db "w1" "alice"
  = Some (sample_workflow "w1" "alice" MANUAL [step_A 0; step_B 1; step_C 2]
            (Some "n8n-1") ACTIVE)
  ∧ snd (WorkflowService.add_workflow_step 9 deployed_db "w1" "alice"
           (step_B 40))
    = Ok (step_B 3).
Proof.
  split; [reflexivity |].
  exact (proj1 (add_step_appends_at_step_count 9 deployed_db "w1" "alice" _
                  (step_B 40) "b" [] eq_refl)).
Defined.

(** C10, as stated, fails: removing the middle one of three steps leaves
    the order values 0 and 2, which are not dense. *)
Lemma remove_step_leaves_gap :
  orders_unique_dense [step_A 0; step_B 1; step_C 2]
  ∧ ∃ w,
      WorkflowService.get_workflow
        (fst (WorkflowService.remove_workflow_step 9 deployed_db "w1" "alice"
                "b"))
        "w1" "alice" = Some w
      ∧ orders (Workflow.steps w) = [0; 2]
      ∧ ¬ orders_unique_dense (Workflow.steps w).
Proof.
  split.
  - unfold orders_unique_dense. split.
    + apply (bool_decide_unpack _). vm_compute. reflexivity.
    + repeat constructor; simpl; lia.
  - eexists. split; [reflexivity |]. split; [reflexivity |].
    intros [_ Hb]. simpl in Hb.
    apply Forall_cons in Hb as [_ Hb]. apply Forall_cons in Hb as [Hb _].
    simpl in Hb. lia.
Qed.

(** The next step added after that removal takes order 2 a second time, and
    an update may write any order. *)
Example add_after_remove_duplicates_order :
  let db1 :=
    fst (WorkflowService.remove_workflow_step 9 deployed_db "w1" "alice" "b")
  in
  let db2 :=
    fst (WorkflowService.add_workflow_step 9 db1 "w1" "alice" (step_B 0)) in
  (orders ∘ Workflow.steps <$> WorkflowService.get_workflow db2 "w1" "alice")
  = Some [0; 2; 2].
Proof. reflexivity. Qed.

Example update_step_writes_any_order :
  let db1 :=
    fst (WorkflowService.update_workflow_step deployed_db "w1" "alice" "a"
           [WorkflowStep.SetOrder 7]) in
  (orders ∘ Workflow.steps <$> WorkflowService.get_workflow db1 "w1" "alice")
  = Some [7; 1; 2].
Proof. reflexivity. Qed.

(** ** The graph translator *)

Lemma step_node_name (step : WorkflowStep.t) (index : nat) :
  Node.name (_create_step_node step index) = WorkflowStep.name step.
Proof.
  unfold _create_step_node, _create_integration_node.
  destruct (WorkflowStep.action_type step); try reflexivity.
  repeat case_bool_decide; reflexivity.
Qed.

(** The loop appends one node per step, the step at position [k] of the
    rest being translated with index [i + k]. *)
Lemma convert_steps_nodes (steps : list WorkflowStep.t) :
  ∀ i nodes connections previous_node,
    fst (convert_steps i steps nodes connections previous_node)
    = nodes ++ imap (λ k step, _create_step_node step (i + k)) steps.
Proof.
  induction steps as [|step rest IH]; intros i nodes connections prev.
  - simpl. by rewrite app_nil_r.
  - simpl. rewrite IH, <- app_assoc. simpl.
    rewrite Nat.add_0_r. do 2 f_equal.
    apply imap_ext. intros k x _. simpl. f_equal. lia.
Qed.

(** When no name occurs twice, each turn of the loop opens the entry of the
    previous node, and the loop adds the linear chain. *)
Lemma convert_steps_connections (steps : list WorkflowStep.t) :
  ∀ i nodes (connections : gmap string (list Connection.t)) previous_node,
    NoDup (previous_node :: (WorkflowStep.name <$> steps)) →
    (∀ k, k ∈ previous_node :: (WorkflowStep.name <$> steps) →
          connections !! k = None) →
    snd (convert_steps i steps nodes connections previous_node)
    = connections
      ∪ linear_chain (previous_node :: (WorkflowStep.name <$> steps)).
Proof.
  induction steps as [|step rest IH]; intros i nodes connections prev Hnd Hk.
  - simpl. by rewrite (right_id ∅ (∪)).
  - cbn [convert_steps]. rewrite step_node_name.
    apply NoDup_cons in Hnd as [Hprev Hnd].
    rewrite IH; [| done |].
    + unfold connect. rewrite (Hk prev) by (by left).
      rewrite fmap_cons. cbn [linear_chain default app].
      rewrite <- insert_union_l.
      rewrite <- insert_union_r by (apply Hk; by left).
      done.
    + intros k Hin. unfold connect. rewrite lookup_insert_ne.
      * apply Hk. by right.
      * intros ->. by apply Hprev.
Qed.

(** Steps stored in ascending order are their own sorting. *)
Lemma sorted_by_order_sorted (steps : list WorkflowStep.t) :
  Sorted (λ a b, WorkflowStep.order a ≤ WorkflowStep.order b) steps →
  sorted_by_order steps = steps.
Proof.
  induction 1 as [|x l Hl IH Hhd]; [done |].
  unfold sorted_by_order in *. simpl. rewrite IH.
  destruct Hhd as [|y l Hxy]; [done |].
  simpl. by rewrite bool_decide_eq_true_2.
Qed.

(** C1, as the code has it.  The translator emits the trigger node followed
    by one node per step in the order in which the steps are stored.  When
    the node names are pairwise distinct, the connections are the linear
    chain through them in that stored order; the chain follows ascending
    [order] when the steps are stored in ascending [order]. *)
Theorem translator_chains_stored_order (workflow : Workflow.t) :
  let graph := _convert_to_n8n_format workflow in
  Graph.nodes graph
  = _create_trigger_node (Workflow.trigger_type workflow)
      (Workflow.trigger_config workflow)
    :: imap (λ i step, _create_step_node step i) (Workflow.steps workflow)
  ∧ (NoDup (node_names workflow) →
     Graph.connections graph = linear_chain (node_names workflow))
  ∧ (NoDup (node_names workflow) →
     Sorted (λ a b, WorkflowStep.order a ≤ WorkflowStep.order b)
       (Workflow.steps workflow) →
     Graph.connections graph = chain_in_ascending_order workflow).
Proof.
  intros graph. subst graph. unfold _convert_to_n8n_format. simpl.
  assert (Hc : NoDup (node_names workflow) →
               snd (convert_steps 0 (Workflow.steps workflow)
                      [_create_trigger_node (Workflow.trigger_type workflow)
                         (Workflow.trigger_config workflow)]
                      ∅
                      (Node.name
                         (_create_trigger_node
                            (Workflow.trigger_type workflow)
                            (Workflow.trigger_config workflow))))
               = linear_chain (node_names workflow)).
  { intros Hnd. rewrite convert_steps_connections; [| done |].
    - by rewrite (left_id ∅ (∪)).
    - intros k _. apply lookup_empty. }
  split; [| split].
  - by rewrite convert_steps_nodes.
  - exact Hc.
  - intros Hnd Hs. unfold chain_in_ascending_order.
    rewrite sorted_by_order_sorted by done. by apply Hc.
Qed.

Lemma translator_chains_stored_order_witness :
  NoDup (node_names abc_workflow)
  ∧ Graph.connections (_convert_to_n8n_format abc_workflow)
    = linear_chain ["Manual Trigger"; "A"; "B"; "C"].
Proof.
  assert (H : NoDup (node_names abc_workflow))
    by (apply (bool_decide_unpack _); vm_compute; reflexivity).
  split; [exact H |].
  exact (proj1 (proj2 (translator_chains_stored_order abc_workflow)) H).
Defined.

(** C1, as stated, fails: with the steps stored as A, B, C under the orders
    7, 1, 2 the translator still chains trigger → A → B → C, while ascending
    order asks for trigger → B → C → A. *)
Lemma translator_ignores_order :
  Graph.connections (_convert_to_n8n_format reordered_workflow)
  = linear_chain ["Manual Trigger"; "A"; "B"; "C"]
  ∧ chain_in_ascending_order reordered_workflow
    = linear_chain ["Manual Trigger"; "B"; "C"; "A"]
  ∧ Graph.connections (_convert_to_n8n_format reordered_workflow)
    ≠ chain_in_ascending_order reordered_workflow.
Proof.
  split; [| split].
  - vm_compute. reflexivity.
  - vm_compute. reflexivity.
  - vm_compute. discriminate.
Qed.

(** The stored order of [reordered_workflow] is what one step update
    leaves behind. *)
Example reordered_workflow_reachable :
  WorkflowService.get_workflow
    (fst (WorkflowService.update_workflow_step deployed_db "w1" "alice" "a"
            [WorkflowStep.SetOrder 7]))
    "w1" "alice"
  = Some reordered_workflow.
Proof. reflexivity. Qed.

(** Two steps of the same name share one entry of the connections dict: the
    second is chained from itself and the edge between them is a loop. *)
Example same_name_steps_share_an_entry :
  Graph.connections
    (_convert_to_n8n_format
       (sample_workflow "w4" "alice" MANUAL [step_A 0; step_A 1] None DRAFT))
  = <["Manual Trigger" := [Connection.mk "A" "main" 0]]>
      (<["A" := [Connection.mk "A" "main" 0]]> ∅).
Proof. vm_compute. reflexivity. Qed.

(** ** Reconciliation *)

Lemma UpdateData_set_idemp (u : UpdateData.t) (e : WorkflowExecution.t) :
  UpdateData.set u (UpdateData.set u e) = UpdateData.set u e.
Proof. by destruct u as [? ? ? [?|] [?|]]. Qed.

(** The update depends on the stored record through [started_at] only. *)
Lemma build_update_set (u : UpdateData.t) (e : WorkflowExecution.t)
    (n8n_execution : N8NExecution.t) :
  N8NService.build_update (UpdateData.set u e) n8n_execution
  = N8NService.build_update e n8n_execution.
Proof. reflexivity. Qed.


(** A second call against the same engine leaves the database as the
    first call left it. *)
Lemma n8n_get_execution_status_idemp (E : Engine.t) (db : DB)
    (execution_id : string) :
  let db1 := fst (N8NService.get_execution_status E db execution_id) in
  fst (N8NService.get_execution_status E db1 execution_id) = db1.
Proof.
  intros db1. subst db1. unfold N8NService.get_execution_status.
  destruct (find_one _ (workflow_executions db)) as [e|] eqn:Hfind;
    [| simpl; by rewrite Hfind].
  destruct (truthy (WorkflowExecution.n8n_execution_id e)) eqn:Hid;
    simpl; [| by rewrite Hfind, Hid].
  destruct (Engine.get_execution E _) as [n8n|msg] eqn:Hget;
    simpl; [| by rewrite Hfind, Hid, Hget].
  destruct (N8NService.build_update e n8n) as [u|msg] eqn:Hupd;
    simpl; [| by rewrite Hfind, Hid, Hget; simpl; rewrite Hupd].
  rewrite find_one_update_one, Hfind by done. simpl.
  rewrite Hid, Hget. simpl. rewrite build_update_set, Hupd. simpl.
  unfold with_executions. simpl. f_equal.
  apply update_one_idemp; [done |].
  intros x _. apply UpdateData_set_idemp.
Qed.

(** An answer with a status and without a finish time: the write and the
    report. *)
Lemma get_execution_status_without_finish (E : Engine.t) (db : DB)
    (execution_id : string) (execution : WorkflowExecution.t)
    (n8n_execution : N8NExecution.t) (n8n_status : string) :
  find_one (λ e, WorkflowExecution.id e = execution_id)
    (workflow_executions db) = Some execution →
  truthy (WorkflowExecution.n8n_execution_id execution) = true →
  Engine.get_execution E
    (default "" (WorkflowExecution.n8n_execution_id execution))
  = Ok n8n_execution →
  N8NExecution.status n8n_execution = Some n8n_status →
  N8NExecution.finishedAt n8n_execution = FinishedMissing →
  let update_data :=
    UpdateData.mk (our_status_of n8n_status)
      (default (JObj []) (N8NExecution.data n8n_execution))
      (default "" (N8NExecution.error n8n_execution)) None None in
  N8NService.get_execution_status E db execution_id
  = (with_executions db
       (update_one (λ e, WorkflowExecution.id e = execution_id)
          (UpdateData.set update_data) (workflow_executions db)),
     Ok (ReportStatus (our_status_of n8n_status)
           (default (JObj []) (N8NExecution.data n8n_execution))
           (default "" (N8NExecution.error n8n_execution))
           (WorkflowExecution.started_at execution) None)).
Proof.
  intros Hfind Hid Hget Hst Hfin update_data.
  unfold N8NService.get_execution_status.
  rewrite Hfind, Hid, Hget. simpl.
  unfold N8NService.build_update. by rewrite Hst, Hfin.
Qed.

(** C2, as the code has it.  [get_execution_status] has no guard on the
    stored status.  For a stored record that the class accepts and that has
    an engine id, an answer of the engine that carries a status and no
    finish time overwrites the status, the step results and the error
    message with the values of the answer, whatever the stored status was,
    terminal or not, and changes nothing else: neither another field of the
    record nor a record of another id.  And the call is idempotent for a
    given answer of the engine: a second call that receives the same answer
    leaves every stored record as the first call left it, through the
    gateway and through the orchestrator alike. *)
Theorem reconcile_idempotent_per_answer (E : Engine.t) (db : DB)
    (execution_id user_id : string) :
  (∀ execution n8n_execution n8n_status,
     find_one (λ e, WorkflowExecution.id e = execution_id)
       (workflow_executions db) = Some execution →
     WorkflowExecution_valid execution →
     truthy (WorkflowExecution.n8n_execution_id execution) = true →
     Engine.get_execution E
       (default "" (WorkflowExecution.n8n_execution_id execution))
     = Ok n8n_execution →
     N8NExecution.status n8n_execution = Some n8n_status →
     N8NExecution.finishedAt n8n_execution = FinishedMissing →
     let db' := fst (N8NService.get_execution_status E db execution_id) in
     find_one (λ e, WorkflowExecution.id e = execution_id)
       (workflow_executions db')
     = Some (WorkflowExecution.mk
               (WorkflowExecution.id execution)
               (WorkflowExecution.workflow_id execution)
               (WorkflowExecution.user_id execution)
               (our_status_of n8n_status)
               (WorkflowExecution.trigger_data execution)
               (default (JObj []) (N8NExecution.data n8n_execution))
               (WorkflowExecution.output_data execution)
               (Some (default "" (N8NExecution.error n8n_execution)))
               (WorkflowExecution.started_at execution)
               (WorkflowExecution.completed_at execution)
               (WorkflowExecution.duration_seconds execution)
               (WorkflowExecution.n8n_execution_id execution))
     ∧ (∀ e, WorkflowExecution.id e ≠ execution_id →
             e ∈ workflow_executions db' ↔ e ∈ workflow_executions db)
     ∧ workflows db' = workflows db)
  ∧ (let db1 := fst (N8NService.get_execution_status E db execution_id) in
     fst (N8NService.get_execution_status E db1 execution_id) = db1)
  ∧ (let db1 :=
       fst (WorkflowService.get_execution_status E db execution_id user_id)
     in
     fst (WorkflowService.get_execution_status E db1 execution_id user_id)
     = db1).
Proof.
  split; [| split].
  - intros execution n8n s Hfind _ Hid Hget Hst Hfin db'. subst db'.
    rewrite (get_execution_status_without_finish E db execution_id execution
               n8n s Hfind Hid Hget Hst Hfin).
    simpl. split; [| split; [| done]].
    + by rewrite find_one_update_one, Hfind.
    + intros e He. apply update_one_other; [| done].
      by intros y Hy.
  - apply n8n_get_execution_status_idemp.
  - unfold WorkflowService.get_execution_status.
    destruct (find_one _ (workflow_executions db)) as [e|] eqn:Hfind.
    + simpl.
      destruct (find_one _
                  (workflow_executions
                     (fst (N8NService.get_execution_status E db
                             execution_id)))); [| done].
      apply n8n_get_execution_status_idemp.
    + simpl. by rewrite Hfind.
Qed.

Lemma reconcile_idempotent_per_answer_witness :
  (λ e, (WorkflowExecution.status e, WorkflowExecution.step_results e,
         WorkflowExecution.completed_at e))
  <$> find_one (λ e, WorkflowExecution.id e = "x1")
        (workflow_executions
           (fst (N8NService.get_execution_status
                   (sample_engine (Ok running_without_finish))
                   reconciled_db "x1")))
  = Some (RUNNING, JArr [JInt 1; JInt 2], Some (utcnow 45000000)).
Proof.
  refine (f_equal
            (fmap (λ e, (WorkflowExecution.status e,
                         WorkflowExecution.step_results e,
                         WorkflowExecution.completed_at e)))
            (proj1 (proj1 (reconcile_idempotent_per_answer
                             (sample_engine (Ok running_without_finish))
                             reconciled_db "x1" "alice")
                      (sample_execution "x1" "w1" SUCCESS
                         (Some (utcnow 45000000))
                         (Some (total_seconds 45000000)) (Some "run-1"))
                      running_without_finish "running"
                      eq_refl _ eq_refl eq_refl eq_refl eq_refl))).
  repeat split.
Defined.

(** C2, as stated, fails: a record already reconciled to success with
    completion after 45 seconds is rewritten when the engine next reports a
    finish after 50 seconds, and is set back to running when the engine
    next reports running without a finish time. *)
Lemma terminal_record_rewritten :
  let E := sample_engine (Ok (success_finished_at 50000000)) in
  let E' := sample_engine (Ok running_without_finish) in
  let stored db :=
    (λ e, (WorkflowExecution.status e, WorkflowExecution.completed_at e))
    <$> find_one (λ e, WorkflowExecution.id e = "x1")
          (workflow_executions db) in
  stored reconciled_db = Some (SUCCESS, Some (utcnow 45000000))
  ∧ terminal SUCCESS
  ∧ stored (fst (N8NService.get_execution_status E' reconciled_db "x1"))
    = Some (RUNNING, Some (utcnow 45000000))
  ∧ stored (fst (N8NService.get_execution_status E reconciled_db "x1"))
    = Some (SUCCESS, Some (utcnow 50000000))
  ∧ fst (N8NService.get_execution_status E reconciled_db "x1")
    ≠ reconciled_db.
Proof.
  split; [reflexivity |]. split; [by left |]. split; [reflexivity |].
  split; [reflexivity |].
  intros H.
  apply (f_equal (λ db,
           WorkflowExecution.completed_at
           <$> find_one (λ e, WorkflowExecution.id e = "x1")
                 (workflow_executions db))) in H.
  vm_compute in H. discriminate H.
Qed.

(** ** Duration *)




(** A finish time with a UTC offset cannot be subtracted from the naive
    [started_at]: the handler reports failed with the TypeError text and the
    record is not written. *)
Example aware_finish_time_is_not_recorded :
  N8NService.get_execution_status
    (sample_engine (Ok (success_finished_at_utc 45000000))) deployed_db "x1"
  = (deployed_db,
     Ok (ReportError FAILED
           "can't subtract offset-naive and offset-aware datetimes")).
Proof. reflexivity. Qed.

(** ** The status of a workflow *)

Lemma update_workflow_db (now : Z) (db : DB) (workflow_id user_id : string)
    (update_data : WorkflowUpdate.t) (workflow : Workflow.t) :
  WorkflowService.get_workflow db workflow_id user_id = Some workflow →
  fst (WorkflowService.update_workflow now db workflow_id user_id update_data)
  = with_workflows db
      (update_one (WorkflowService.owned workflow_id user_id)
         (WorkflowService.apply_update update_data now) (workflows db)).
Proof.
  intros Hget. unfold WorkflowService.update_workflow.
  rewrite (matched_Some _ _ workflow Hget).
  by destruct (WorkflowService.get_workflow (with_workflows _ _) _ _).
Qed.

(** Deployment of a workflow that is not active ends in one of two ways. *)
Lemma deploy_workflow_outcome (E : Engine.t) (webhook_url : string)
    (format : json → string) (now now' : Z) (db : DB)
    (workflow_id user_id : string) (workflow : Workflow.t) :
  WorkflowService.get_workflow db workflow_id user_id = Some workflow →
  Workflow.status workflow ≠ ACTIVE →
  let r :=
    WorkflowService.deploy_workflow E webhook_url format now now' db
      workflow_id user_id in
  let stored :=
    find_one (λ w, Workflow.id w = workflow_id) (workflows (fst r)) in
  match snd r with
  | Ok deployed =>
      Workflow.status <$> stored = Some ACTIVE
      ∧ Workflow.n8n_workflow_id <$> stored
        = Some (Some (DeployResult.n8n_workflow_id deployed))
  | Raise _ => Workflow.status <$> stored = Some ERROR
  end.
Proof.
  intros Hget Hs r stored. subst r stored.
  unfold WorkflowService.deploy_workflow. rewrite Hget.
  rewrite bool_decide_eq_false_2 by done.
  assert (Hex : is_Some (find_one (λ w, Workflow.id w = workflow_id)
                           (workflows db))).
  { unfold WorkflowService.get_workflow in Hget.
    apply find_one_is_Some with workflow.
    - by apply find_one_elem_of in Hget.
    - by apply find_one_Some in Hget as [[? _] _]. }
  destruct Hex as [w0 Hw0].
  destruct (N8NService.create_n8n_workflow E workflow) as [nid|msg]; simpl.
  - destruct (bool_decide (Workflow.trigger_type workflow = WEBHOOK)).
    + destruct (N8NService.get_workflow_webhook_url _ _ _ _) as [url|msg];
        simpl.
      * by rewrite find_one_update_one, Hw0.
      * rewrite !find_one_update_one, Hw0; done.
    + simpl. by rewrite find_one_update_one, Hw0.
  - by rewrite find_one_update_one, Hw0.
Qed.

(** C4, as the code has it.  A workflow is created in draft.  Deploying a
    workflow that is not active either succeeds, leaving it active with the
    engine workflow id the gateway returned, or raises, leaving it in
    error; deploying an active workflow is refused and changes nothing.
    Pause sets paused and resume sets active whatever the status was, and
    [update_workflow] writes any status the request carries. *)
Theorem workflow_status_transitions (E : Engine.t) (webhook_url : string)
    (format : json → string) (uuid : string) (now now' : Z) (db : DB)
    (workflow_id user_id team_id : string) (workflow : Workflow.t)
    (workflow_data : WorkflowCreate.t) (update_data : WorkflowUpdate.t) :
  WorkflowService.get_workflow db workflow_id user_id = Some workflow →
  let status_after (db' : DB) :=
    Workflow.status
    <$> WorkflowService.get_workflow db' workflow_id user_id in
  let deployed :=
    WorkflowService.deploy_workflow E webhook_url format now now' db
      workflow_id user_id in
  let stored :=
    find_one (λ w, Workflow.id w = workflow_id) (workflows (fst deployed)) in
  (∃ created,
     workflows
       (fst (WorkflowService.create_workflow uuid now now' db user_id team_id
               workflow_data))
     = workflows db ++ [created]
     ∧ Workflow.status created = DRAFT
     ∧ Workflow.n8n_workflow_id created = None)
  ∧ (Workflow.status workflow ≠ ACTIVE →
     match snd deployed with
     | Ok result =>
         Workflow.status <$> stored = Some ACTIVE
         ∧ Workflow.n8n_workflow_id <$> stored
           = Some (Some (DeployResult.n8n_workflow_id result))
     | Raise _ => Workflow.status <$> stored = Some ERROR
     end)
  ∧ (Workflow.status workflow = ACTIVE →
     deployed = (db, Raise "Workflow is already active"))
  ∧ status_after
      (fst (WorkflowService.pause_workflow now db workflow_id user_id))
    = Some PAUSED
  ∧ status_after
      (fst (WorkflowService.resume_workflow now db workflow_id user_id))
    = Some ACTIVE
  ∧ status_after
      (fst (WorkflowService.update_workflow now db workflow_id user_id
              update_data))
    = Some (default (Workflow.status workflow)
              (WorkflowUpdate.status update_data)).
Proof.
  intros Hget status_after deployed stored.
  subst status_after deployed stored.
  split; [| split; [| split; [| split; [| split]]]].
  - eexists. simpl. by repeat split.
  - intros Hs.
    pose proof (deploy_workflow_outcome E webhook_url format now now' db
                  workflow_id user_id workflow Hget Hs) as Hout.
    exact Hout.
  - intros Hs. unfold WorkflowService.deploy_workflow.
    by rewrite Hget, bool_decide_eq_true_2.
  - unfold WorkflowService.pause_workflow. simpl.
    by rewrite (get_workflow_update_one _ db workflow_id user_id workflow).
  - unfold WorkflowService.resume_workflow. simpl.
    by rewrite (get_workflow_update_one _ db workflow_id user_id workflow).
  - rewrite (update_workflow_db now db workflow_id user_id update_data
               workflow Hget).
    by rewrite (get_workflow_update_one _ db workflow_id user_id workflow).
Qed.

Lemma workflow_status_transitions_witness :
  WorkflowService.get_workflow draft_db "w1" "alice"
  = Some (sample_workflow "w1" "alice" MANUAL [] None DRAFT)
  ∧ (Workflow.status
     <$> WorkflowService.get_workflow
           (fst (WorkflowService.pause_workflow 5 draft_db "w1" "alice"))
           "w1" "alice")
    = Some PAUSED.
Proof.
  split; [reflexivity |].
  exact (proj1 (proj2 (proj2 (proj2
           (workflow_status_transitions failing_engine "http://n8n" (λ _, "")
              "w9" 5 6 draft_db "w1" "alice" "team" _
              (WorkflowCreate.mk "New" None MANUAL ∅) (status_update PAUSED)
              eq_refl))))).
Defined.

(** C4, as stated, fails: resume makes a draft workflow active although it
    was never deployed and has no engine workflow id, and so does an update
    request that carries the status. *)
Lemma resume_activates_undeployed_draft :
  let state (db : DB) :=
    (λ w, (Workflow.status w, Workflow.n8n_workflow_id w))
    <$> WorkflowService.get_workflow db "w1" "alice" in
  state draft_db = Some (DRAFT, None)
  ∧ state (fst (WorkflowService.resume_workflow 5 draft_db "w1" "alice"))
    = Some (ACTIVE, None)
  ∧ state (fst (WorkflowService.update_workflow 5 draft_db "w1" "alice"
                  (status_update ACTIVE)))
    = Some (ACTIVE, None).
Proof. repeat split. Qed.

(** Deploying the draft against an engine that accepts it, and against one
    that is down. *)
Example deploy_draft_succeeds :
  let r :=
    WorkflowService.deploy_workflow (sample_engine (Raise "unused"))
      "http://n8n" (λ _, "") 5 6 draft_db "w1" "alice" in
  snd r = Ok (DeployResult.mk "deployed" "n8n-1" None)
  ∧ ((λ w, (Workflow.status w, Workflow.n8n_workflow_id w))
     <$> WorkflowService.get_workflow (fst r) "w1" "alice")
    = Some (ACTIVE, Some "n8n-1").
Proof. split; reflexivity. Qed.

Example deploy_draft_fails :
  let r :=
    WorkflowService.deploy_workflow failing_engine "http://n8n" (λ _, "")
      5 6 draft_db "w1" "alice" in
  snd r = Raise "Failed to create n8n workflow: 503"
  ∧ (Workflow.status <$> WorkflowService.get_workflow (fst r) "w1" "alice")
    = Some ERROR.
Proof. split; reflexivity. Qed.

(** ** Further lemmas on collections *)

Section MoreCollectionLemmas.
Context {A : Type} (P : A → Prop) `{!∀ x, Decision (P x)}.

Lemma find_one_None (l : list A) :
  Forall (λ x, ¬ P x) l → find_one P l = None.
Proof.
  induction 1 as [|x l Hx _ IH]; [done |].
  rewrite find_one_cons. by rewrite decide_False.
Qed.

Lemma find_one_None_inv (l : list A) :
  find_one P l = None → Forall (λ x, ¬ P x) l.
Proof.
  induction l as [|x l IH]; [constructor |].
  rewrite find_one_cons. destruct (decide (P x)); [done |].
  intros Hn. constructor; auto.
Qed.

Lemma update_one_fmap {B : Type} (g : A → B) (f : A → A) (l : list A) :
  (∀ x, g (f x) = g x) → g <$> update_one P f l = g <$> l.
Proof.
  intros Hg. induction l as [|x l IH]; [done |].
  cbn [update_one]. destruct (decide (P x)); rewrite !fmap_cons.
  - by rewrite Hg.
  - by rewrite IH.
Qed.

Lemma filter_none (l : list A) :
  Forall (λ x, ¬ P x) l → filter P l = [].
Proof.
  induction 1 as [|x l Hx _ IH]; [done |].
  by rewrite filter_cons, decide_False.
Qed.

Lemma filter_length_split (l : list A) :
  (length (filter P l) + length (filter (λ x, ¬ P x) l))%nat = length l.
Proof.
  induction l as [|x l IH]; [done |].
  rewrite !filter_cons. destruct (decide (P x)) as [Hx | Hx].
  - rewrite decide_False by auto. simpl. lia.
  - rewrite decide_True by done. simpl. lia.
Qed.

Lemma delete_one_only_match (l : list A) (x : A) :
  filter P l = [x] → find_one P (delete_one P l) = None.
Proof.
  induction l as [|y l IH]; [done |].
  rewrite filter_cons. simpl. destruct (decide (P y)) as [Hy | Hy].
  - intros [= _ Hl]. unfold find_one. by rewrite Hl.
  - intros Hl. rewrite find_one_cons, decide_False by done. by apply IH.
Qed.

Lemma find_one_snoc (l : list A) (x : A) :
  Forall (λ y, ¬ P y) l → P x → find_one P (l ++ [x]) = Some x.
Proof.
  intros Hl Hx. unfold find_one. rewrite filter_app.
  rewrite (filter_none l Hl). simpl.
  by rewrite filter_cons, decide_True.
Qed.

End MoreCollectionLemmas.

(** ** Operations on one workflow leave the others alone *)

Lemma touches_only_update_one (f : Workflow.t → Workflow.t) (db : DB)
    (workflow_id user_id : string) :
  (∀ w, Workflow.id (f w) = Workflow.id w
        ∧ Workflow.user_id (f w) = Workflow.user_id w) →
  touches_only workflow_id user_id db
    (with_workflows db
       (update_one (WorkflowService.owned workflow_id user_id) f
          (workflows db))).
Proof.
  intros Hf. split; [done |]. split.
  - simpl. apply update_one_fmap. intros w. by destruct (Hf w) as [-> ->].
  - intros w Hw. simpl. apply update_one_other; [| done].
    intros y [Hi Hu]. destruct (Hf y) as [Hi' Hu']. split; congruence.
Qed.

(** X1. Pausing, resuming, updating a workflow and adding or removing one
    of its steps leave every execution and every workflow of another id or
    owner as they were, and neither add nor remove a workflow. *)
Theorem workflow_writes_touch_only_their_workflow (now : Z) (db : DB)
    (workflow_id user_id step_id : string) (update_data : WorkflowUpdate.t)
    (step : WorkflowStep.t) :
  touches_only workflow_id user_id db
    (fst (WorkflowService.pause_workflow now db workflow_id user_id))
  ∧ touches_only workflow_id user_id db
      (fst (WorkflowService.resume_workflow now db workflow_id user_id))
  ∧ touches_only workflow_id user_id db
      (fst (WorkflowService.update_workflow now db workflow_id user_id
              update_data))
  ∧ touches_only workflow_id user_id db
      (fst (WorkflowService.add_workflow_step now db workflow_id user_id
              step))
  ∧ touches_only workflow_id user_id db
      (fst (WorkflowService.remove_workflow_step now db workflow_id user_id
              step_id)).
Proof.
  assert (Hrefl : touches_only workflow_id user_id db db) by done.
  split; [| split; [| split; [| split]]].
  - by apply touches_only_update_one.
  - by apply touches_only_update_one.
  - unfold WorkflowService.update_workflow.
    destruct (matched _ _); [| done].
    destruct (WorkflowService.get_workflow (with_workflows _ _) _ _);
      by apply touches_only_update_one.
  - unfold WorkflowService.add_workflow_step.
    destruct (find_one _ _); [| done].
    by apply touches_only_update_one.
  - by apply touches_only_update_one.
Qed.

(** ** What reconciliation never changes *)

Lemma dispatch_fields_set (u : UpdateData.t) (e : WorkflowExecution.t) :
  dispatch_fields (UpdateData.set u e) = dispatch_fields e.
Proof. reflexivity. Qed.

(** Either nothing is written, or the first record with the id takes one
    update. *)
Lemma get_execution_status_db (E : Engine.t) (db : DB)
    (execution_id : string) :
  fst (N8NService.get_execution_status E db execution_id) = db
  ∨ ∃ u,
      fst (N8NService.get_execution_status E db execution_id)
      = with_executions db
          (update_one (λ e, WorkflowExecution.id e = execution_id)
             (UpdateData.set u) (workflow_executions db)).
Proof.
  unfold N8NService.get_execution_status.
  destruct (find_one _ _) as [e|]; [| by left].
  destruct (negb _); [by left |].
  destruct (_ ≫= _) as [u|]; [| by left].
  right. by exists u.
Qed.

(** X2. A status poll never touches the workflows, never adds or removes an
    execution record, never changes the id, workflow, owner, trigger data,
    output data, start time or engine execution id of any record, and
    leaves every record of another id exactly as it was. *)
Theorem reconcile_keeps_dispatch_fields (E : Engine.t) (db : DB)
    (execution_id : string) :
  let db' := fst (N8NService.get_execution_status E db execution_id) in
  workflows db' = workflows db
  ∧ dispatch_fields <$> workflow_executions db'
    = dispatch_fields <$> workflow_executions db
  ∧ ∀ e, WorkflowExecution.id e ≠ execution_id →
         e ∈ workflow_executions db' ↔ e ∈ workflow_executions db.
Proof.
  intros db'. subst db'.
  destruct (get_execution_status_db E db execution_id) as [-> | [u ->]];
    [done |].
  split; [done |]. split.
  - simpl. apply update_one_fmap. intros e. apply dispatch_fields_set.
  - intros e He. simpl. by apply update_one_other.
Qed.

(** ** The poll job *)

Lemma monitor_step_keeps (E : Engine.t) (acc : DB * nat)
    (execution : WorkflowExecution.t) :
  let acc' := WorkflowTasks.monitor_step E acc execution in
  workflows (fst acc') = workflows (fst acc)
  ∧ dispatch_fields <$> workflow_executions (fst acc')
    = dispatch_fields <$> workflow_executions (fst acc)
  ∧ (snd acc ≤ snd acc' ≤ S (snd acc))%nat.
Proof.
  intros acc'. subst acc'. unfold WorkflowTasks.monitor_step.
  pose proof (get_execution_status_db E (fst acc)
                (WorkflowExecution.id execution)) as Hdb.
  destruct (N8NService.get_execution_status E (fst acc)
              (WorkflowExecution.id execution)) as [db' [r|msg]];
    simpl in *.
  - assert (Hk : workflows db' = workflows (fst acc)
                 ∧ dispatch_fields <$> workflow_executions db'
                   = dispatch_fields <$> workflow_executions (fst acc)).
    { destruct Hdb as [-> | [u ->]];
        [done |]. split; [done |]. simpl.
      apply update_one_fmap. intros e. apply dispatch_fields_set. }
    destruct Hk as [? ?]. repeat split; try done; case_bool_decide; lia.
  - assert (Hk : workflows db' = workflows (fst acc)
                 ∧ dispatch_fields <$> workflow_executions db'
                   = dispatch_fields <$> workflow_executions (fst acc)).
    { destruct Hdb as [-> | [u ->]];
        [done |]. split; [done |]. simpl.
      apply update_one_fmap. intros e. apply dispatch_fields_set. }
    destruct Hk as [? ?]. repeat split; try done; lia.
Qed.

Lemma monitor_fold_keeps (E : Engine.t)
    (polled : list WorkflowExecution.t) :
  ∀ acc,
    let acc' := foldl (WorkflowTasks.monitor_step E) acc polled in
    workflows (fst acc') = workflows (fst acc)
    ∧ dispatch_fields <$> workflow_executions (fst acc')
      = dispatch_fields <$> workflow_executions (fst acc)
    ∧ (snd acc' ≤ snd acc + length polled)%nat.
Proof.
  induction polled as [|x polled IH]; intros acc.
  - simpl. repeat split; lia.
  - simpl. destruct (IH (WorkflowTasks.monitor_step E acc x)) as (Hw & He & Hc).
    destruct (monitor_step_keeps E acc x) as (Hw' & He' & Hc').
    split; [congruence |]. split; [congruence |]. lia.
Qed.

(** X3. The poll job never touches the workflows, never adds or removes an
    execution record and never changes the dispatch fields of one; it polls
    at most a hundred running executions and reports at most that many as
    updated. *)
Theorem monitor_keeps_records (E : Engine.t) (db : DB) :
  let r := WorkflowTasks.monitor_workflow_executions_task E db in
  workflows (fst r) = workflows db
  ∧ dispatch_fields <$> workflow_executions (fst r)
    = dispatch_fields <$> workflow_executions db
  ∧ (snd r ≤ length (WorkflowTasks.running_executions db) ≤ 100)%nat.
Proof.
  intros r. subst r. unfold WorkflowTasks.monitor_workflow_executions_task.
  destruct (monitor_fold_keeps E (WorkflowTasks.running_executions db)
              (db, 0%nat)) as (Hw & He & Hc).
  split; [done |]. split; [done |]. split; [done |].
  unfold WorkflowTasks.running_executions. rewrite length_take. lia.
Qed.

(** With the engine down no poll writes anything, and every polled record
    with an engine id is reported failed. *)
Lemma monitor_fold_engine_down (E : Engine.t) (db : DB)
    (polled : list WorkflowExecution.t) :
  (∀ i, is_Raise (Engine.get_execution E i)) →
  Forall (λ e, truthy (WorkflowExecution.n8n_execution_id e) = true)
    (workflow_executions db) →
  polled ⊆ workflow_executions db →
  ∀ n, foldl (WorkflowTasks.monitor_step E) (db, n) polled
       = (db, (n + length polled)%nat).
Proof.
  intros Hdown Hids. induction polled as [|x polled IH]; intros Hsub n.
  - simpl. f_equal. lia.
  - simpl.
    assert (Hstep : WorkflowTasks.monitor_step E (db, n) x = (db, S n)).
    { unfold WorkflowTasks.monitor_step, N8NService.get_execution_status.
      simpl.
      destruct (find_one_is_Some (λ e, WorkflowExecution.id e
                                       = WorkflowExecution.id x)
                  (workflow_executions db) x) as [e He];
        [apply Hsub; by left | done |].
      rewrite He.
      rewrite Forall_forall in Hids.
      rewrite (Hids e) by (by apply find_one_elem_of in He). simpl.
      specialize (Hdown (default "" (WorkflowExecution.n8n_execution_id e))).
      destruct (Engine.get_execution E _); [done |]. reflexivity. }
    rewrite Hstep, IH.
    + f_equal. lia.
    + intros y Hy. apply Hsub. by right.
Qed.

(** X4. When every status call to the engine fails and every execution
    record is one that the class accepts and carries an engine id, the poll
    job leaves the database exactly as it was and still reports every polled
    running execution as updated. *)
Theorem monitor_counts_failures_as_updates (E : Engine.t) (db : DB) :
  (∀ i, is_Raise (Engine.get_execution E i)) →
  Forall WorkflowExecution_valid (workflow_executions db) →
  Forall (λ e, truthy (WorkflowExecution.n8n_execution_id e) = true)
    (workflow_executions db) →
  WorkflowTasks.monitor_workflow_executions_task E db
  = (db, length (WorkflowTasks.running_executions db)).
Proof.
  intros Hdown _ Hids. unfold WorkflowTasks.monitor_workflow_executions_task.
  rewrite (monitor_fold_engine_down E db); try done.
  unfold WorkflowTasks.running_executions. intros x Hx.
  apply elem_of_take in Hx as (i & Hx & _).
  apply list_elem_of_lookup_2 in Hx.
  by apply list_elem_of_filter in Hx as [_ ?].
Qed.

Lemma monitor_counts_failures_as_updates_witness :
  WorkflowTasks.monitor_workflow_executions_task failing_engine deployed_db
  = (deployed_db, 2%nat).
Proof.
  apply (monitor_counts_failures_as_updates failing_engine deployed_db).
  - intros i. exact I.
  - repeat constructor.
  - repeat constructor.
Defined.

(** ** The retention job *)

(** X5. The retention job removes exactly the executions that started more
    than thirty days before the clock reading, compared by the millisecond;
    it keeps all others in their order, reports the number it removed, does
    not touch the workflows, and a second run at the same clock reading
    removes nothing. *)
Theorem cleanup_removes_exactly_the_old (now : Z) (db : DB) :
  let cutoff := mk_datetime (now - WorkflowTasks.thirty_days) None in
  let r := WorkflowTasks.cleanup_old_executions_task now db in
  workflows (fst r) = workflows db
  ∧ (∀ e, e ∈ workflow_executions (fst r) ↔
          e ∈ workflow_executions db
          ∧ bson_millis cutoff
            ≤ bson_millis (WorkflowExecution.started_at e))
  ∧ workflow_executions (fst r) `sublist_of` workflow_executions db
  ∧ (snd r + length (workflow_executions (fst r)))%nat
    = length (workflow_executions db)
  ∧ WorkflowTasks.cleanup_old_executions_task now (fst r) = (fst r, 0%nat).
Proof.
  intros cutoff r. subst r. unfold WorkflowTasks.cleanup_old_executions_task.
  fold cutoff. simpl. split; [done |]. split; [| split; [| split]].
  - intros e. unfold delete_many. rewrite list_elem_of_filter.
    unfold WorkflowTasks.started_before. split; intros [? ?]; split;
      try done; lia.
  - apply sublist_filter.
  - apply filter_length_split.
  - unfold delete_many, with_executions. simpl. f_equal.
    + f_equal. rewrite list_filter_filter. apply list_filter_iff.
      intros e. tauto.
    + rewrite filter_none; [done |].
      apply Forall_forall. intros e He.
      by apply list_elem_of_filter in He as [? _].
Qed.

(** ** The engine webhook *)

(** X6. The engine webhook runs a workflow as the user "system": unless a
    workflow of the requested id is owned by that user, the request creates
    no execution and changes nothing, whatever the status of the workflows
    of that id, and a well-formed request is still answered
    "webhook_received". *)
Theorem n8n_webhook_runs_as_system (E : Engine.t) (uuid : string) (now : Z)
    (db : DB) (workflow_id : string) (body : request_body) :
  Forall (λ w, ¬ (Workflow.id w = workflow_id
                  ∧ Workflow.user_id w = "system")) (workflows db) →
  fst (Webhooks.n8n_webhook E uuid now db workflow_id body) = db
  ∧ (snd (Webhooks.n8n_webhook E uuid now db workflow_id body)
     = Ok ("webhook_received", workflow_id)
     ∨ ∃ msg, body = MalformedBody msg).
Proof.
  intros Hnone.
  assert (Hget : WorkflowService.get_workflow db workflow_id "system" = None)
    by (by apply find_one_None).
  unfold Webhooks.n8n_webhook, WorkflowService.execute_workflow.
  destruct body as [|msg|j]; rewrite ?Hget; simpl; split; eauto.
Qed.

Lemma n8n_webhook_runs_as_system_witness :
  fst (Webhooks.n8n_webhook (sample_engine (Raise "unused")) "x9" 7
         deployed_db "w1" EmptyBody)
  = deployed_db.
Proof.
  apply (n8n_webhook_runs_as_system (sample_engine (Raise "unused")) "x9" 7
           deployed_db "w1" EmptyBody).
  repeat constructor; intros [_ H]; discriminate H.
Defined.

(** ** Dispatch writes one record or nothing *)

(** The record a dispatch at clock reading [now] appends. *)
Lemma n8n_execute_workflow_outcome (E : Engine.t) (uuid : string) (now : Z)
    (db : DB) (workflow_id : string) (trigger_data : option json) :
  let r :=
    N8NService.execute_workflow E uuid now db workflow_id trigger_data in
  match snd r with
  | Ok execution_id =>
      execution_id = uuid
      ∧ ∃ workflow n8n_workflow_id n8n_execution_id,
          find_one (λ w, Workflow.id w = workflow_id) (workflows db)
          = Some workflow
          ∧ Workflow.n8n_workflow_id workflow = Some n8n_workflow_id
          ∧ n8n_workflow_id ≠ ""
          ∧ Engine.post_execute E n8n_workflow_id (or_empty trigger_data)
            = Ok n8n_execution_id
          ∧ fst r
            = with_executions db
                (workflow_executions db
                 ++ [WorkflowExecution.mk uuid workflow_id
                       (Workflow.user_id workflow) RUNNING
                       (or_empty trigger_data) (JObj []) (JObj []) None
                       (utcnow now) None None (Some n8n_execution_id)])
  | Raise _ => fst r = db
  end.
Proof.
  intros r. subst r. unfold N8NService.execute_workflow.
  destruct (find_one _ (workflows db)) as [w|] eqn:Hw; [| done].
  destruct (Workflow.n8n_workflow_id w) as [i|] eqn:Hi; [| done].
  case_bool_decide as Hne; [done |].
  destruct (Engine.post_execute E i (or_empty trigger_data)) as [x|] eqn:Hx;
    [| done].
  destruct (or_empty trigger_data) eqn:Htd; try done.
  simpl. split; [done |]. by exists w, i, x.
Qed.

(** X7. Dispatch is all or nothing.  When [execute_workflow] raises, the
    database is left as it was.  When it returns, it returns the id of
    exactly one appended record: running, started at the clock reading as a
    naive time, without completion time, duration or error, carrying the
    trigger data and the engine's execution id; and the workflow with that
    id has a non-empty engine workflow id. *)
Theorem dispatch_appends_one_record (E : Engine.t) (uuid : string) (now : Z)
    (db : DB) (workflow_id user_id : string) (trigger_data : option json) :
  let r :=
    WorkflowService.execute_workflow E uuid now db workflow_id user_id
      trigger_data in
  match snd r with
  | Ok execution_id =>
      execution_id = uuid
      ∧ ∃ workflow n8n_workflow_id n8n_execution_id,
          find_one (λ w, Workflow.id w = workflow_id) (workflows db)
          = Some workflow
          ∧ Workflow.n8n_workflow_id workflow = Some n8n_workflow_id
          ∧ n8n_workflow_id ≠ ""
          ∧ Engine.post_execute E n8n_workflow_id (or_empty trigger_data)
            = Ok n8n_execution_id
          ∧ fst r
            = with_executions db
                (workflow_executions db
                 ++ [WorkflowExecution.mk uuid workflow_id
                       (Workflow.user_id workflow) RUNNING
                       (or_empty trigger_data) (JObj []) (JObj []) None
                       (utcnow now) None None (Some n8n_execution_id)])
  | Raise _ => fst r = db
  end.
Proof.
  intros r. subst r. unfold WorkflowService.execute_workflow.
  destruct (WorkflowService.get_workflow db workflow_id user_id); [| done].
  destruct (bool_decide _); [done |].
  apply n8n_execute_workflow_outcome.
Qed.

(** ** Dispatch, then reconciliation *)



(** ** Deployment, then dispatch *)

Lemma find_one_update_one_other {A : Type} (P Q : A → Prop)
    `{!∀ x, Decision (P x)} `{!∀ x, Decision (Q x)}
    (f : A → A) (l : list A) (x : A) :
  (∀ y, P y → P (f y)) →
  find_one P l = Some x → find_one Q l = Some x →
  find_one P (update_one Q f l) = Some (f x).
Proof.
  intros Hf. induction l as [|y l IH]; [done |].
  rewrite !find_one_cons. cbn [update_one].
  destruct (decide (Q y)) as [HQ | HQ].
  - intros HP [= ->]. rewrite find_one_cons.
    destruct (decide (P x)) as [HPx | HPx].
    + by rewrite decide_True by auto.
    + apply find_one_Some in HP as [HPx' _]. done.
  - destruct (decide (P y)) as [HPy | HPy].
    + intros [= ->] HQx. apply find_one_Some in HQx as [HQx _]. done.
    + intros HP HQx. rewrite find_one_cons, decide_False by done. auto.
Qed.



(** ** After deletion *)

(** X10. Once the only workflow of an id and owner is deleted, it cannot be
    fetched, dispatch for it fails with "Workflow not found" and writes
    nothing, and a second deletion reports failure and changes nothing. *)
Theorem delete_then_gone (E E' : Engine.t) (uuid : string) (now : Z)
    (db : DB) (workflow_id user_id : string) (workflow : Workflow.t)
    (trigger_data : option json) :
  filter (WorkflowService.owned workflow_id user_id) (workflows db)
  = [workflow] →
  let db' := fst (WorkflowService.delete_workflow E db workflow_id user_id) in
  WorkflowService.get_workflow db' workflow_id user_id = None
  ∧ WorkflowService.execute_workflow E' uuid now db' workflow_id user_id
      trigger_data
    = (db', Raise "Workflow not found")
  ∧ WorkflowService.delete_workflow E' db' workflow_id user_id
    = (db', false).
Proof.
  intros Honly db'.
  assert (Hget : WorkflowService.get_workflow db workflow_id user_id
                 = Some workflow).
  { unfold WorkflowService.get_workflow, find_one. by rewrite Honly. }
  assert (Hgone : WorkflowService.get_workflow db' workflow_id user_id
                  = None).
  { subst db'. unfold WorkflowService.delete_workflow. rewrite Hget.
    unfold WorkflowService.get_workflow. simpl.
    by apply delete_one_only_match with workflow. }
  split; [done |]. split.
  - unfold WorkflowService.execute_workflow. by rewrite Hgone.
  - unfold WorkflowService.delete_workflow. by rewrite Hgone.
Qed.

Lemma delete_then_gone_witness :
  WorkflowService.get_workflow
    (fst (WorkflowService.delete_workflow failing_engine deployed_db "w1"
            "alice"))
    "w1" "alice"
  = None.
Proof.
  exact (proj1 (delete_then_gone failing_engine failing_engine "x9" 7
                  deployed_db "w1" "alice" _ None eq_refl)).
Defined.

(** ** Step updates that report the wrong thing *)

(** X11. Removing a step id that no step of the workflow has leaves the
    steps as they are and still reports success, as soon as the clock
    reading differs by the millisecond from the stored update time. *)
Theorem remove_unknown_step_reports_success (now : Z) (db : DB)
    (workflow_id user_id step_id : string) (workflow : Workflow.t) :
  WorkflowService.get_workflow db workflow_id user_id = Some workflow →
  Forall (λ s, WorkflowStep.id s ≠ step_id) (Workflow.steps workflow) →
  bson_millis (Workflow.updated_at workflow) ≠ bson_millis (utcnow now) →
  let r :=
    WorkflowService.remove_workflow_step now db workflow_id user_id step_id in
  snd r = true
  ∧ WorkflowService.get_workflow (fst r) workflow_id user_id
    = Some (Workflow.set_updated_at (utcnow now) workflow).
Proof.
  intros Hget Hnone Hclock r. subst r.
  unfold WorkflowService.remove_workflow_step. simpl.
  assert (Hsteps : filter (λ s, WorkflowStep.id s ≠ step_id)
                     (Workflow.steps workflow) = Workflow.steps workflow).
  { induction Hnone as [|s l Hs _ IH]; [done |].
    by rewrite filter_cons, decide_True, IH. }
  split.
  - unfold modified. unfold WorkflowService.get_workflow in Hget.
    rewrite Hget. apply negb_true_iff, bool_decide_eq_false_2.
    intros Heq. apply (f_equal Workflow.updated_at) in Heq. simpl in Heq.
    apply Hclock. by rewrite <- Heq.
  - rewrite (get_workflow_update_one _ db workflow_id user_id workflow);
      [| done | done].
    rewrite Hsteps. by destruct workflow.
Qed.

Lemma remove_unknown_step_reports_success_witness :
  snd (WorkflowService.remove_workflow_step 9000 deployed_db "w1" "alice"
         "no-such-step")
  = true.
Proof.
  refine (proj1 (remove_unknown_step_reports_success 9000 deployed_db "w1"
                   "alice" "no-such-step" _ eq_refl _ _)).
  - repeat constructor; discriminate.
  - vm_compute. discriminate.
Defined.

Lemma update_one_id {A : Type} (P : A → Prop) `{!∀ x, Decision (P x)}
    (f : A → A) (l : list A) :
  (∀ x, x ∈ l → P x → f x = x) → update_one P f l = l.
Proof.
  induction l as [|x l IH]; [done |]. intros Hf.
  cbn [update_one]. destruct (decide (P x)).
  - rewrite Hf; [done | by left | done].
  - rewrite IH; [done |]. intros y Hy. apply Hf. by right.
Qed.

(** X12. A step update reports failure and writes nothing when no step of
    the workflow has the id, and also when the step exists but the update
    assigns it the values it already has. *)
Theorem update_step_reports_failure_without_change (db : DB)
    (workflow_id user_id step_id : string)
    (step_update : list WorkflowStep.assignment) :
  step_update ≠ [] →
  (∀ w s, w ∈ workflows db → s ∈ Workflow.steps w →
          WorkflowStep.id s = step_id →
          foldl WorkflowStep.assign s step_update = s) →
  WorkflowService.update_workflow_step db workflow_id user_id step_id
    step_update
  = (db, false).
Proof.
  intros _ Hsame.
  assert (Hw : ∀ w, w ∈ workflows db →
                    Workflow.set_steps
                      (WorkflowService.update_steps step_id step_update
                         (Workflow.steps w)) w = w).
  { intros w Hin. unfold WorkflowService.update_steps.
    rewrite update_one_id; [by destruct w |].
    intros s Hs Hid. by apply (Hsame w). }
  unfold WorkflowService.update_workflow_step. f_equal.
  - destruct db as [ws es]. unfold with_workflows. simpl in *. f_equal.
    apply update_one_id. intros w Hin _. by apply Hw.
  - unfold modified. destruct (find_one _ _) as [w|] eqn:Hf; [| done].
    apply negb_false_iff, bool_decide_eq_true_2. apply Hw.
    by apply find_one_elem_of in Hf.
Qed.

Lemma update_step_reports_failure_without_change_witness :
  WorkflowService.update_workflow_step deployed_db "w1" "alice" "a"
    [WorkflowStep.SetName "A"; WorkflowStep.SetOrder 0]
  = (deployed_db, false).
Proof.
  apply (update_step_reports_failure_without_change deployed_db "w1" "alice"
           "a" [WorkflowStep.SetName "A"; WorkflowStep.SetOrder 0]);
    [discriminate |].
  intros w s Hw Hs Hid. simpl in Hw.
  apply elem_of_cons in Hw as [-> | Hw].
  - simpl in Hs. repeat (apply elem_of_cons in Hs as [-> | Hs]);
      try discriminate Hid; [reflexivity | by apply elem_of_nil in Hs].
  - apply elem_of_cons in Hw as [-> | Hw]; [by apply elem_of_nil in Hs |].
    by apply elem_of_nil in Hw.
Defined.

(** ** Creating and listing workflows *)

(** X13. A workflow created under an id the user has not used yet is
    fetched back as a draft without steps and without engine ids; it is
    appended to the user's listing when the user had fewer than a hundred
    workflows, and left out of the listing otherwise. *)
Theorem create_then_get_and_list (uuid : string) (now now' : Z) (db : DB)
    (user_id team_id : string) (workflow_data : WorkflowCreate.t) :
  Forall (λ w, ¬ WorkflowService.owned uuid user_id w) (workflows db) →
  let r :=
    WorkflowService.create_workflow uuid now now' db user_id team_id
      workflow_data in
  let owned_before :=
    length (filter (λ w, Workflow.user_id w = user_id) (workflows db)) in
  WorkflowService.get_workflow (fst r) uuid user_id
  = Some (Workflow.mk uuid user_id team_id
            (WorkflowCreate.name workflow_data)
            (WorkflowCreate.description workflow_data)
            (WorkflowCreate.trigger_type workflow_data)
            (WorkflowCreate.trigger_config workflow_data)
            [] None None DRAFT false [] 1 30 (utcnow now) (utcnow now'))
  ∧ ((owned_before < 100)%nat →
     WorkflowService.get_user_workflows (fst r) user_id
     = WorkflowService.get_user_workflows db user_id ++ [snd r])
  ∧ ((100 ≤ owned_before)%nat →
     WorkflowService.get_user_workflows (fst r) user_id
     = WorkflowService.get_user_workflows db user_id).
Proof.
  intros Hfresh r owned_before. subst r owned_before.
  unfold WorkflowService.create_workflow. simpl. split; [| split].
  - unfold WorkflowService.get_workflow. simpl.
    by apply find_one_snoc.
  - intros Hlt. unfold WorkflowService.get_user_workflows. simpl.
    rewrite filter_app, filter_cons, decide_True by done.
    rewrite filter_nil, take_app.
    rewrite !take_ge by lia.
    rewrite take_ge by (simpl; lia).
    by rewrite fmap_app.
  - intros Hge. unfold WorkflowService.get_user_workflows. simpl.
    rewrite filter_app. by rewrite take_app_le.
Qed.

Lemma create_then_get_and_list_witness :
  Workflow.status
  <$> WorkflowService.get_workflow
        (fst (WorkflowService.create_workflow "w9" 5 6 deployed_db "alice"
                "team" (WorkflowCreate.mk "New" None WEBHOOK ∅)))
        "w9" "alice"
  = Some DRAFT.
Proof.
  refine (f_equal (fmap Workflow.status)
            (proj1 (create_then_get_and_list "w9" 5 6 deployed_db "alice"
                      "team" (WorkflowCreate.mk "New" None WEBHOOK ∅) _))).
  repeat constructor; intros [H _]; discriminate H.
Defined.

(** ** The execution history *)

#[local] Instance most_recent_first_total : Total most_recent_first.
Proof. intros a b. unfold most_recent_first. lia. Qed.

#[local] Instance most_recent_first_trans : Transitive most_recent_first.
Proof. intros a b c. unfold most_recent_first. lia. Qed.



(** ** More on the graph translator *)

Lemma edge_count_connect (previous_node : string) (c : Connection.t)
    (connections : gmap string (list Connection.t)) :
  edge_count (connect previous_node c connections)
  = S (edge_count connections).
Proof.
  unfold connect, edge_count.
  destruct (connections !! previous_node) as [old|] eqn:Hold; simpl.
  - rewrite <- insert_delete_eq.
    rewrite map_to_list_insert by apply lookup_delete_eq.
    rewrite <- (map_to_list_delete connections previous_node old Hold).
    simpl. rewrite length_app. simpl. lia.
  - rewrite map_to_list_insert by done. done.
Qed.

Lemma convert_steps_edges (steps : list WorkflowStep.t) :
  ∀ i nodes (connections : gmap string (list Connection.t)) previous_node,
    let r := convert_steps i steps nodes connections previous_node in
    edge_count (snd r) = (edge_count connections + length steps)%nat
    ∧ ∀ k, is_Some (snd r !! k) →
           is_Some (connections !! k)
           ∨ k ∈ previous_node :: (WorkflowStep.name <$> steps).
Proof.
  induction steps as [|step rest IH]; intros i nodes connections prev.
  - simpl. split; [lia | auto].
  - cbn [convert_steps]. rewrite step_node_name.
    destruct (IH (S i) (nodes ++ [_create_step_node step i])
                (connect prev (Connection.mk (WorkflowStep.name step) "main" 0)
                   connections)
                (WorkflowStep.name step)) as [Hcount Hkeys].
    split.
    + rewrite Hcount, edge_count_connect. simpl. lia.
    + intros k Hk. destruct (Hkeys k Hk) as [Hin | Hin].
      * unfold connect in Hin. destruct (decide (prev = k)) as [-> | Hne].
        -- right. by left.
        -- rewrite lookup_insert_ne in Hin by done. by left.
      * right. rewrite fmap_cons. by right.
Qed.

(** X15. Whatever the names of the steps, the graph has one node more than
    the workflow has steps and exactly as many edges as steps, and every
    source of an edge is the name of one of its nodes. *)
Theorem translator_counts (workflow : Workflow.t) :
  let graph := _convert_to_n8n_format workflow in
  length (Graph.nodes graph) = S (length (Workflow.steps workflow))
  ∧ edge_count (Graph.connections graph) = length (Workflow.steps workflow)
  ∧ ∀ source, is_Some (Graph.connections graph !! source) →
              source ∈ node_names workflow.
Proof.
  intros graph. subst graph. unfold _convert_to_n8n_format. simpl.
  destruct (convert_steps_edges (Workflow.steps workflow) 0
              [_create_trigger_node (Workflow.trigger_type workflow)
                 (Workflow.trigger_config workflow)]
              ∅
              (Node.name (_create_trigger_node
                            (Workflow.trigger_type workflow)
                            (Workflow.trigger_config workflow))))
    as [Hcount Hkeys].
  split; [| split].
  - rewrite convert_steps_nodes. simpl. by rewrite length_imap.
  - rewrite Hcount. unfold edge_count. by rewrite map_to_list_empty.
  - intros source Hs. destruct (Hkeys source Hs) as [Hin | Hin]; [| done].
    rewrite lookup_empty in Hin. by destruct Hin.
Qed.

Lemma step_node_position (step : WorkflowStep.t) (index : nat) :
  Node.position (_create_step_node step index)
  = (450, 300 + (Z.of_nat index + 1) * 180).
Proof.
  unfold _create_step_node, _create_integration_node.
  destruct (WorkflowStep.action_type step); try reflexivity.
  repeat case_bool_decide; reflexivity.
Qed.

(** X16. The nodes are laid out top to bottom in the order of the list: the
    node at position k of the graph sits at height 300 + 180 k, the trigger
    in column 250 and every step in column 450; so no two nodes share a
    position. *)
Theorem translator_layout (workflow : Workflow.t) (k : nat) (node : Node.t) :
  Graph.nodes (_convert_to_n8n_format workflow) !! k = Some node →
  Node.position node
  = (if bool_decide (k = 0%nat) then 250 else 450, 300 + 180 * Z.of_nat k).
Proof.
  unfold _convert_to_n8n_format. simpl. rewrite convert_steps_nodes. simpl.
  destruct k as [|k]; simpl.
  - intros [= <-]. by destruct (Workflow.trigger_type workflow).
  - rewrite list_lookup_imap.
    destruct (Workflow.steps workflow !! k) as [step|]; [| done].
    simpl. intros [= <-]. rewrite step_node_position. f_equal. lia.
Qed.

Lemma translator_layout_witness :
  Node.position (_create_step_node (step_B 1) 1) = (450, 300 + 180 * 2).
Proof.
  exact (translator_layout abc_workflow 2 (_create_step_node (step_B 1) 1)
           eq_refl).
Defined.

Lemma create_step_node_same (a b : WorkflowStep.t) (index : nat) :
  same_for_translator a b →
  _create_step_node a index = _create_step_node b index.
Proof.
  intros (Hid & Hname & Htype & Hconfig).
  unfold _create_step_node, _create_integration_node.
  by rewrite Hid, Hname, Htype, Hconfig.
Qed.

Lemma convert_steps_same (steps steps' : list WorkflowStep.t) :
  Forall2 same_for_translator steps steps' →
  ∀ i nodes connections previous_node,
    convert_steps i steps nodes connections previous_node
    = convert_steps i steps' nodes connections previous_node.
Proof.
  induction 1 as [|a b l l' Hab _ IH]; intros i nodes connections prev;
    [done |].
  cbn [convert_steps]. rewrite (create_step_node_same a b i Hab). apply IH.
Qed.

(** X17. The graph depends on a step only through its id, name, action
    type and config: two workflows of the same name, tags and trigger whose
    steps agree on these four fields, position by position, translate to
    the same graph, whatever their order values, dependencies, timeouts,
    retry counts, error policies, integration references and mappings. *)
Theorem translator_reads_four_step_fields (w w' : Workflow.t) :
  Workflow.name w = Workflow.name w' →
  Workflow.tags w = Workflow.tags w' →
  Workflow.trigger_type w = Workflow.trigger_type w' →
  Workflow.trigger_config w = Workflow.trigger_config w' →
  Forall2 same_for_translator (Workflow.steps w) (Workflow.steps w') →
  _convert_to_n8n_format w = _convert_to_n8n_format w'.
Proof.
  intros Hn Ht Htt Htc Hsteps. unfold _convert_to_n8n_format.
  rewrite Hn, Ht, Htt, Htc.
  by rewrite (convert_steps_same _ _ Hsteps).
Qed.

Lemma translator_reads_four_step_fields_witness :
  _convert_to_n8n_format reordered_workflow
  = _convert_to_n8n_format abc_workflow.
Proof.
  apply translator_reads_four_step_fields; try reflexivity.
  repeat constructor.
Defined.

(** ** Pause and resume *)

(** X18. Pausing an active workflow blocks dispatch, which then fails with
    "Workflow is not active" and writes nothing; resuming it afterwards
    gives back the workflow as it was before the pause, but for its update
    time. *)
Theorem pause_resume_round_trip (E : Engine.t) (uuid : string)
    (now now2 now3 : Z) (db : DB) (workflow_id user_id : string)
    (workflow : Workflow.t) (trigger_data : option json) :
  WorkflowService.get_workflow db workflow_id user_id = Some workflow →
  Workflow.status workflow = ACTIVE →
  let paused :=
    fst (WorkflowService.pause_workflow now db workflow_id user_id) in
  let resumed :=
    fst (WorkflowService.resume_workflow now2 paused workflow_id user_id) in
  WorkflowService.execute_workflow E uuid now3 paused workflow_id user_id
    trigger_data
  = (paused, Raise "Workflow is not active")
  ∧ WorkflowService.get_workflow resumed workflow_id user_id
    = Some (Workflow.set_updated_at (utcnow now2) workflow).
Proof.
  intros Hget Hactive paused resumed.
  assert (Hp : WorkflowService.get_workflow paused workflow_id user_id
               = Some (Workflow.set_updated_at (utcnow now)
                         (Workflow.set_status PAUSED workflow))).
  { subst paused. unfold WorkflowService.pause_workflow. simpl.
    by rewrite (get_workflow_update_one _ db workflow_id user_id workflow). }
  clearbody paused. split.
  - unfold WorkflowService.execute_workflow. by rewrite Hp.
  - subst resumed. unfold WorkflowService.resume_workflow. simpl.
    rewrite (get_workflow_update_one
               (λ w, Workflow.set_updated_at (utcnow now2)
                       (Workflow.set_status ACTIVE w))
               paused workflow_id user_id _ ltac:(done) Hp).
    destruct workflow. simpl in *. by rewrite Hactive.
Qed.

Lemma pause_resume_round_trip_witness :
  WorkflowService.get_workflow
    (fst (WorkflowService.resume_workflow 8
            (fst (WorkflowService.pause_workflow 7 deployed_db "w1" "alice"))
            "w1" "alice"))
    "w1" "alice"
  = Some (Workflow.set_updated_at (utcnow 8) abc_workflow).
Proof.
  exact (proj2 (pause_resume_round_trip failing_engine "x9" 7 8 9 deployed_db
                  "w1" "alice" abc_workflow None eq_refl eq_refl)).
Defined.

(** ** Deployment in detail *)

(** The document [get_workflow] returns after a write that selects by id
    alone, when the owner's workflow is the first of its id. *)
Lemma get_workflow_after_id_update (f : Workflow.t → Workflow.t) (db : DB)
    (workflow_id user_id : string) (workflow : Workflow.t) :
  (∀ w, Workflow.id (f w) = Workflow.id w
        ∧ Workflow.user_id (f w) = Workflow.user_id w) →
  WorkflowService.get_workflow db workflow_id user_id = Some workflow →
  find_one (λ w, Workflow.id w = workflow_id) (workflows db)
  = Some workflow →
  WorkflowService.get_workflow
    (with_workflows db
       (update_one (λ w, Workflow.id w = workflow_id) f (workflows db)))
    workflow_id user_id
  = Some (f workflow).
Proof.
  intros Hf Hget Hfirst. unfold WorkflowService.get_workflow. simpl.
  apply find_one_update_one_other; try done.
  intros y [Hi Hu]. destruct (Hf y) as [Hi' Hu']. split; congruence.
Qed.

(** A deployment the gateway accepts: the write and the answer. *)
Lemma deploy_workflow_succeeds (E : Engine.t) (webhook_url : string)
    (format : json → string) (now now' : Z) (db : DB)
    (workflow_id user_id : string) (workflow : Workflow.t)
    (n8n_workflow_id : string) :
  WorkflowService.get_workflow db workflow_id user_id = Some workflow →
  find_one (λ w, Workflow.id w = workflow_id) (workflows db)
  = Some workflow →
  Workflow.status workflow ≠ ACTIVE →
  N8NService.create_n8n_workflow E workflow = Ok n8n_workflow_id →
  n8n_workflow_id ≠ "" →
  WorkflowService.deploy_workflow E webhook_url format now now' db
    workflow_id user_id
  = (with_workflows db
       (update_one (λ w, Workflow.id w = workflow_id)
          (λ w, Workflow.set_updated_at (utcnow now)
                  (Workflow.set_status ACTIVE
                     (Workflow.set_n8n_workflow_id (Some n8n_workflow_id)
                        w)))
          (workflows db)),
     Ok (DeployResult.mk "deployed" n8n_workflow_id
           (if bool_decide (Workflow.trigger_type workflow = WEBHOOK)
            then
              Some (webhook_url +:+ "/webhook/"
                    +:+ format (dict_get (Workflow.trigger_config workflow)
                                  "path" (JStr "webhook")))
            else None))).
Proof.
  intros Hget Hfirst Hs Hcreate Hne.
  unfold WorkflowService.deploy_workflow. rewrite Hget.
  rewrite bool_decide_eq_false_2 by done. rewrite Hcreate.
  case_bool_decide as Hwebhook; [| done].
  unfold N8NService.get_workflow_webhook_url. simpl.
  rewrite find_one_update_one, Hfirst by done. simpl.
  rewrite bool_decide_eq_false_2 by (by intros ?).
  by rewrite bool_decide_eq_false_2 by done.
Qed.

(** X19. When the gateway creates the graph and returns a non-empty engine
    workflow id, deploying a workflow that is not active and is the first of
    its id answers "deployed" with that id, and with the webhook URL built
    from the configured base and the stored path ("webhook" when the
    trigger config has none) for a webhook trigger, with no URL for any
    other trigger; the stored workflow is then active under that engine
    id. *)
Theorem deploy_success_result (E : Engine.t) (webhook_url : string)
    (format : json → string) (now now' : Z) (db : DB)
    (workflow_id user_id : string) (workflow : Workflow.t)
    (n8n_workflow_id : string) :
  WorkflowService.get_workflow db workflow_id user_id = Some workflow →
  find_one (λ w, Workflow.id w = workflow_id) (workflows db)
  = Some workflow →
  Workflow.status workflow ≠ ACTIVE →
  N8NService.create_n8n_workflow E workflow = Ok n8n_workflow_id →
  n8n_workflow_id ≠ "" →
  let r :=
    WorkflowService.deploy_workflow E webhook_url format now now' db
      workflow_id user_id in
  snd r
  = Ok (DeployResult.mk "deployed" n8n_workflow_id
          (if bool_decide (Workflow.trigger_type workflow = WEBHOOK)
           then
             Some (webhook_url +:+ "/webhook/"
                   +:+ format (dict_get (Workflow.trigger_config workflow)
                                 "path" (JStr "webhook")))
           else None))
  ∧ WorkflowService.get_workflow (fst r) workflow_id user_id
    = Some (Workflow.set_updated_at (utcnow now)
              (Workflow.set_status ACTIVE
                 (Workflow.set_n8n_workflow_id (Some n8n_workflow_id)
                    workflow))).
Proof.
  intros Hget Hfirst Hs Hcreate Hne r. subst r.
  rewrite (deploy_workflow_succeeds E webhook_url format now now' db
             workflow_id user_id workflow n8n_workflow_id) by done.
  split; [done |]. simpl.
  by apply (get_workflow_after_id_update
              (λ w, Workflow.set_updated_at (utcnow now)
                      (Workflow.set_status ACTIVE
                         (Workflow.set_n8n_workflow_id
                            (Some n8n_workflow_id) w)))).
Qed.

Lemma deploy_success_result_witness :
  snd (WorkflowService.deploy_workflow (sample_engine (Raise "unused"))
         "http://n8n" (λ _, "") 5 6 draft_db "w1" "alice")
  = Ok (DeployResult.mk "deployed" "n8n-1" None).
Proof.
  refine (proj1 (deploy_success_result (sample_engine (Raise "unused"))
                   "http://n8n" (λ _, "") 5 6 draft_db "w1" "alice"
                   (sample_workflow "w1" "alice" MANUAL [] None DRAFT)
                   "n8n-1" eq_refl eq_refl _ eq_refl _));
    discriminate.
Defined.

(** X20. A failed deployment can be retried.  When the gateway fails, the
    deployment raises the gateway's error and leaves the workflow in error
    with its other fields, the engine workflow id included, unchanged; a
    second deployment against a gateway that accepts the same workflow then
    leaves it active under the new engine id. *)
Theorem deploy_retry_after_failure (E E' : Engine.t) (webhook_url : string)
    (format : json → string) (now now' now2 now2' : Z) (db : DB)
    (workflow_id user_id : string) (workflow : Workflow.t)
    (e n8n_workflow_id : string) :
  WorkflowService.get_workflow db workflow_id user_id = Some workflow →
  find_one (λ w, Workflow.id w = workflow_id) (workflows db)
  = Some workflow →
  Workflow.status workflow ≠ ACTIVE →
  N8NService.create_n8n_workflow E workflow = Raise e →
  N8NService.create_n8n_workflow E' workflow = Ok n8n_workflow_id →
  n8n_workflow_id ≠ "" →
  let failed :=
    WorkflowService.deploy_workflow E webhook_url format now now' db
      workflow_id user_id in
  let retried :=
    WorkflowService.deploy_workflow E' webhook_url format now2 now2'
      (fst failed) workflow_id user_id in
  snd failed = Raise e
  ∧ WorkflowService.get_workflow (fst failed) workflow_id user_id
    = Some (Workflow.set_updated_at (utcnow now')
              (Workflow.set_status ERROR workflow))
  ∧ WorkflowService.get_workflow (fst retried) workflow_id user_id
    = Some (Workflow.set_updated_at (utcnow now2)
              (Workflow.set_status ACTIVE
                 (Workflow.set_n8n_workflow_id (Some n8n_workflow_id)
                    workflow))).
Proof.
  intros Hget Hfirst Hs Hfail Hok Hne failed retried.
  set (g := λ w, Workflow.set_updated_at (utcnow now')
                   (Workflow.set_status ERROR w)).
  assert (Hfailed : failed
                    = (with_workflows db
                         (update_one (λ w, Workflow.id w = workflow_id) g
                            (workflows db)),
                       Raise e)).
  { subst failed. unfold WorkflowService.deploy_workflow. rewrite Hget.
    rewrite bool_decide_eq_false_2 by done. by rewrite Hfail. }
  assert (Hget1 : WorkflowService.get_workflow (fst failed) workflow_id
                    user_id = Some (g workflow)).
  { rewrite Hfailed. by apply (get_workflow_after_id_update g). }
  assert (Hfirst1 : find_one (λ w, Workflow.id w = workflow_id)
                      (workflows (fst failed)) = Some (g workflow)).
  { rewrite Hfailed. simpl. by rewrite find_one_update_one, Hfirst. }
  split; [by rewrite Hfailed |]. split; [done |].
  subst retried. clearbody failed.
  rewrite (deploy_workflow_succeeds E' webhook_url format now2 now2'
             (fst failed) workflow_id user_id (g workflow) n8n_workflow_id)
    by done.
  simpl.
  by rewrite (get_workflow_after_id_update _ (fst failed) workflow_id
                user_id (g workflow)).
Qed.

Lemma deploy_retry_after_failure_witness :
  Workflow.status
  <$> WorkflowService.get_workflow
        (fst (WorkflowService.deploy_workflow
                (sample_engine (Raise "unused")) "http://n8n" (λ _, "") 7 8
                (fst (WorkflowService.deploy_workflow failing_engine
                        "http://n8n" (λ _, "") 5 6 draft_db "w1" "alice"))
                "w1" "alice"))
        "w1" "alice"
  = Some ACTIVE.
Proof.
  refine (f_equal (fmap Workflow.status)
            (proj2 (proj2
               (deploy_retry_after_failure failing_engine
                  (sample_engine (Raise "unused")) "http://n8n" (λ _, "")
                  5 6 7 8 draft_db "w1" "alice"
                  (sample_workflow "w1" "alice" MANUAL [] None DRAFT)
                  "Failed to create n8n workflow: 503" "n8n-1"
                  eq_refl eq_refl _ eq_refl eq_refl _))));
    discriminate.
Defined.
